(** * mongo-express, lib/routes/collection.js: query building, paging and
      result shaping.

    A shallow embedding of the request-to-query core of the collection routes
    ([_getQuery], [_getSort], [_getProjection], [_getQueryOptions],
    [_getAggregatePipeline], [_getItemsAndCount], the size-guard loop of
    [viewCollection] and [importCollection]) together with the properties the
    specification states about them.

    Conventions of the model.
    - JavaScript values are the inductive [jsval]. An object is the list of
      its own enumerable properties in enumeration order (the order of
      [for ... in] and [Object.keys]); property names are unique in a
      JavaScript object, which the theorems that need it assume as [NoDup].
    - Numbers are integers or NaN; [parseInt] and sums round to the nearest
      double. Non-integral doubles and infinities are outside the model.
    - A string is the sequence of bytes of its UTF-8 encoding, a lone
      surrogate held as its three bytes. White space is recognised on that
      encoding, for every code point JavaScript counts as white space or as
      a line terminator, and [slice] counts UTF-16 code units on it.
    - A thrown exception is the [Throw] case of [result].
    - Builtins of the JavaScript runtime and the modules of the repository
      that the routes import ([../bson.js], [../utils.js]) are interfaces
      (type classes); the document store is an interface as well. *)

From Stdlib Require Import ZArith List String Ascii Bool Lia DecimalString.
Import ListNotations.

Local Open Scope string_scope.
Local Open Scope Z_scope.

Set Warnings "-register-all".

(** ** Values *)

Inductive num : Type :=
| Int (z : Z)
| NaN.

Inductive jsval : Type :=
| VUndefined
| VNull
| VBool (b : bool)
| VNum (n : num)
| VStr (s : string)
| VArr (elems : list jsval)
| VObj (props : list (string * jsval))
| VRegExp (source flags : string)
| VObjectId (hex : string)
| VBinary (bytes : list Byte.byte) (sub_type : Z).

(** An object seen as its list of own properties. *)
Definition doc := list (string * jsval).

Definition VInt (z : Z) : jsval := VNum (Int z).

(** ** Exceptions *)

Inductive exn : Type :=
| Error (msg : string)
| TypeError (msg : string)
| SyntaxError (msg : string)
| StoreError (msg : string).

Inductive result (A : Type) : Type :=
| Ok (a : A)
| Throw (e : exn).
Arguments Ok {A} a.
Arguments Throw {A} e.

Definition bind {A B} (m : result A) (k : A -> result B) : result B :=
  match m with
  | Ok a => k a
  | Throw e => Throw e
  end.

Declare Scope js_scope.
Delimit Scope js_scope with js.
Notation "x <- m ;; k" := (bind m (fun x => k))
  (at level 61, m at next level, right associativity) : js_scope.
Local Open Scope js_scope.

(** ** Property access and the other primitive operations the routes use *)

Fixpoint get (k : string) (d : doc) : option jsval :=
  match d with
  | [] => None
  | (k', v) :: d' => if String.eqb k' k then Some v else get k d'
  end.

(** [o[k]] on an object: [undefined] when the property is missing. *)
Definition field (k : string) (d : doc) : jsval :=
  match get k d with
  | Some v => v
  | None => VUndefined
  end.

(** [o[k] = v] for a property that exists (assignment in a [for ... in]
    loop over [o] itself); the enumeration order is unchanged. *)
Fixpoint set (k : string) (v : jsval) (d : doc) : doc :=
  match d with
  | [] => []
  | (k', v') :: d' =>
      if String.eqb k' k then (k', v) :: d' else (k', v') :: set k v d'
  end.

Definition keys (d : doc) : list string := map fst d.

(** Truthiness of a query-string parameter: absent or empty is falsy. *)
Definition truthy (o : option string) : bool :=
  match o with
  | Some s => negb (String.eqb s "")
  | None => false
  end.

(** [String(x)] for a parameter that may be [undefined]. *)
Definition ToString (o : option string) : string :=
  match o with
  | Some s => s
  | None => "undefined"
  end.

(** [...x] in an array literal or an argument list. *)
Fixpoint chars (s : string) : list jsval :=
  match s with
  | EmptyString => []
  | String c r => VStr (String c EmptyString) :: chars r
  end.

Definition spread (x : jsval) : result (list jsval) :=
  match x with
  | VArr l => Ok l
  | VStr s => Ok (chars s)
  | _ => Throw (TypeError "object is not iterable")
  end.

(** *** [parseInt(s, 10)] *)

(** White space and line terminators of one byte: U+0009 to U+000D and
    U+0020. *)
Definition is_ws (c : ascii) : bool :=
  let n := nat_of_ascii c in
  ((9 <=? n)%nat && (n <=? 13)%nat) || (n =? 32)%nat.

(** Of two bytes: U+00A0. *)
Definition is_ws2 (c1 c2 : ascii) : bool :=
  (nat_of_ascii c1 =? 194)%nat && (nat_of_ascii c2 =? 160)%nat.

(** Of three bytes: U+1680, U+2000 to U+200A, U+2028, U+2029, U+202F,
    U+205F, U+3000 and U+FEFF. *)
Definition is_ws3 (c1 c2 c3 : ascii) : bool :=
  let a := nat_of_ascii c1 in
  let b := nat_of_ascii c2 in
  let c := nat_of_ascii c3 in
  ((a =? 225) && (b =? 154) && (c =? 128))%nat
  || ((a =? 226) && (b =? 128)
      && (((128 <=? c) && (c <=? 138)) || (c =? 168) || (c =? 169)
          || (c =? 175)))%nat
  || ((a =? 226) && (b =? 129) && (c =? 159))%nat
  || ((a =? 227) && (b =? 128) && (c =? 128))%nat
  || ((a =? 239) && (b =? 187) && (c =? 191))%nat.

(** The string without its leading white space ([trimStart], and the first
    step of [parseInt]). *)
Fixpoint skip_ws (s : string) : string :=
  match s with
  | EmptyString => s
  | String c1 r1 =>
      if is_ws c1 then skip_ws r1
      else
        match r1 with
        | EmptyString => s
        | String c2 r2 =>
            if is_ws2 c1 c2 then skip_ws r2
            else
              match r2 with
              | EmptyString => s
              | String c3 r3 => if is_ws3 c1 c2 c3 then skip_ws r3 else s
              end
        end
  end.

(** White space only. *)
Definition all_ws (s : string) : bool :=
  match skip_ws s with
  | EmptyString => true
  | String _ _ => false
  end.

(** The double nearest to an integer, ties to even; the integer itself
    below 2^53. JavaScript has Infinity where this gives 2^1024 or more. *)
Definition to_double (z : Z) : Z :=
  let a := Z.abs z in
  if a <? 2 ^ 53 then z
  else
    let e := Z.log2 a - 52 in
    let q := Z.shiftr a e in
    let r := a - Z.shiftl q e in
    let q' :=
      if (2 ^ (e - 1) <? r) || ((r =? 2 ^ (e - 1)) && Z.odd q) then q + 1
      else q in
    Z.sgn z * Z.shiftl q' e.

(** [a + b] on integers: the sum, rounded. *)
Definition js_add (a b : Z) : Z := to_double (a + b).

Definition digit (c : ascii) : option Z :=
  let n := Z.of_nat (nat_of_ascii c) in
  if (48 <=? n) && (n <=? 57) then Some (n - 48) else None.

Fixpoint digits (s : string) (acc : option Z) : option Z :=
  match s with
  | EmptyString => acc
  | String c r =>
      match digit c with
      | Some d =>
          digits r (Some (10 * match acc with Some a => a | None => 0 end + d))
      | None => acc
      end
  end.

Definition parseInt (s : string) : num :=
  let s := skip_ws s in
  let '(neg, s) :=
    match s with
    | String c r =>
        if Ascii.eqb c "-"%char then (true, r)
        else if Ascii.eqb c "+"%char then (false, r)
        else (false, s)
    | EmptyString => (false, s)
    end in
  match digits s None with
  | Some n => Int (to_double (if neg then - n else n))
  | None => NaN
  end.

(** [n || 0] on a number. *)
Definition or_zero (n : num) : Z :=
  match n with
  | Int z => z
  | NaN => 0
  end.

(** [s.replaceAll('-', '')]. *)
Fixpoint strip_hyphens (s : string) : string :=
  match s with
  | EmptyString => EmptyString
  | String c r =>
      if Ascii.eqb c "-"%char then strip_hyphens r
      else String c (strip_hyphens r)
  end.

(** The value of a hexadecimal digit. *)
Definition hex (c : ascii) : option nat :=
  let n := nat_of_ascii c in
  if ((48 <=? n) && (n <=? 57))%nat then Some (n - 48)%nat
  else if ((97 <=? n) && (n <=? 102))%nat then Some (n - 87)%nat
  else if ((65 <=? n) && (n <=? 70))%nat then Some (n - 55)%nat
  else None.

(** [Buffer.from(s, 'hex')]: one byte for every pair of hexadecimal digits,
    up to the first pair that is not one; a last single digit is dropped. *)
Fixpoint Buffer_from_hex (s : string) : list Byte.byte :=
  match s with
  | String a (String b r) =>
      match hex a, hex b with
      | Some x, Some y =>
          byte_of_ascii (ascii_of_nat (16 * x + y)) :: Buffer_from_hex r
      | _, _ => []
      end
  | _ => []
  end.

Fixpoint all_hex (s : string) : bool :=
  match s with
  | EmptyString => true
  | String c r => match hex c with Some _ => all_hex r | None => false end
  end.

(** Modelled from the spec: [parseObjectId] of [lib/bson.js], which is not
    part of the sources at hand. Section 4.1: the raw value is parsed as a
    store identifier of 24 hexadecimal characters; malformed input is a
    parse error. *)
Definition parseObjectId (s : string) : result jsval :=
  if (String.length s =? 24)%nat && all_hex s then Ok (VObjectId s)
  else Throw (Error "ParseError").

(** ** Interfaces *)

(** Builtins of the runtime. *)
Class Runtime : Type := {
  toUpperCase : string -> string;
  Number : string -> num;
  JSON_parse : string -> result jsval;
  (* whether the text is a pattern [new RegExp] accepts *)
  RegExp_valid : string -> bool;
  JSON_stringify : jsval -> string;
  (* ToNumber on a value that is not a primitive *)
  ToNumber_object : jsval -> num;
}.

(** What the routes use of [lib/bson.js] ([toSafeBSON]) and of the driver
    ([EJSON.parse]). [toSafeBSON] answers [null] on text it cannot parse and
    never throws (section 4.2 of the specification). *)
Class Bson : Type := {
  toSafeBSON : string -> jsval;
  EJSON_parse : string -> result jsval;
  (* number of own enumerable properties of an ObjectId or a Binary *)
  driver_keys : jsval -> nat;
}.

(** [new RegExp(pattern, flags)] *)
Definition RegExp_new {rt : Runtime} (pattern flags : string)
    : result jsval :=
  if RegExp_valid pattern then Ok (VRegExp pattern flags)
  else Throw (SyntaxError "Invalid regular expression").

(** What the routes use of [lib/utils.js]: the approximate byte size of a
    value and the human-readable rendering of a size. *)
Class Utils : Type := {
  roughSizeOfObject : jsval -> Z;
  bytesToSize : Z -> string;
}.

(** [Object.keys(x).length]. *)
Definition Object_keys_count {bson : Bson} (x : jsval) : result nat :=
  match x with
  | VObj d => Ok (List.length (keys d))
  | VArr l => Ok (List.length l)
  | VStr s => Ok (String.length s)
  | VUndefined | VNull =>
      Throw (TypeError "Cannot convert undefined or null to object")
  | VBool _ | VNum _ | VRegExp _ _ => Ok O
  | VObjectId _ | VBinary _ _ => Ok (driver_keys x)
  end.

(** The configuration the routes are built with. *)
Record Config : Type := {
  documentsPerPage : Z;
  maxPropSize : Z;
  maxRowSize : Z;
  allowDiskUse : bool;
  awsDocumentDb : bool;
}.

(** ** Requests *)

Module Query.
Record t : Type := {
  key : option string;
  value : option string;
  type : option string;
  query : option string;
  sort : option (list (string * string));
  skip : option string;
  projection : option string;
  runAggregate : option string;
}.
End Query.

Record file : Type := {
  mimetype : string;
  data : option string;
}.

Record request : Type := {
  params : Query.t;   (* req.query *)
  files : option (list file);
}.

Module QueryOptions.
Record t : Type := {
  sort : jsval;
  limit : Z;
  skip : Z;
  projection : jsval;
  allowDiskUse : option bool;
}.
End QueryOptions.

Definition SUBTYPE_UUID : Z := 4.

Definition ALLOWED_MIME_TYPES : list string :=
  ["text/csv"; "application/json"].

(** ** The typed value converters *)

Section Converters.
Context {rt : Runtime} {bson : Bson}.

Definition converters : list (string * (string -> result jsval)) :=
  [ ("J", fun value => JSON_parse value);
    ("N", fun value => Ok (VNum (Number value)));
    ("O", fun value => parseObjectId value);
    ("R", fun value => RegExp_new value "i");
    ("U", fun value =>
            Ok (VBinary (Buffer_from_hex (strip_hyphens value)) SUBTYPE_UUID));
    ("S", fun value => Ok (VStr value)) ].

(** [converters[type]], and [type in converters] as its being defined. The
    [in] operator also sees the properties inherited from [Object.prototype];
    each of their names has a lower-case letter, so no upper-cased tag is
    one of them. *)
Fixpoint converter (type : string)
    (table : list (string * (string -> result jsval)))
    : option (string -> result jsval) :=
  match table with
  | [] => None
  | (t, f) :: table' =>
      if String.eqb t type then Some f else converter type table'
  end.

(** [_getQuery]: the filter (or pipeline) of a request. *)
Definition _getQuery (req : request) : result jsval :=
  let key := Query.key (params req) in
  let value := Query.value (params req) in
  if truthy key && truthy value then
    let type := option_map toUpperCase (Query.type (params req)) in
    match converter (ToString type) converters with
    | None => Throw (Error ("Invalid query type: " ++ ToString type))
    | Some convert =>
        value <- convert (ToString value) ;;
        Ok (VObj [(ToString key, value)])
    end
  else
    let jsonQuery := Query.query (params req) in
    if truthy jsonQuery then
      match toSafeBSON (ToString jsonQuery) with
      | VNull => Throw (Error "Query entered is not valid")
      | result => Ok result
      end
    else Ok (VObj []).

Definition _getSort (req : request) : jsval :=
  match Query.sort (params req) with
  | Some sort =>
      VObj (map (fun iv => (fst iv, VNum (parseInt (snd iv)))) sort)
  | None => VObj []
  end.

Definition _getProjection (req : request) : jsval :=
  let projection := Query.projection (params req) in
  if truthy projection then
    match toSafeBSON (ToString projection) with
    | VNull | VUndefined => VObj []
    | p => p
    end
  else VObj [].

Variable config : Config.

Definition _getQueryOptions (req : request) : QueryOptions.t :=
  {| QueryOptions.sort := _getSort req;
     QueryOptions.limit := documentsPerPage config;
     QueryOptions.skip :=
       or_zero (parseInt (ToString (Query.skip (params req))));
     QueryOptions.projection := _getProjection req;
     QueryOptions.allowDiskUse := None |}.

Definition _getAggregatePipeline (pipeline : jsval)
    (queryOptions : QueryOptions.t) : result (list jsval) :=
  stages <- spread pipeline ;;
  nsort <- Object_keys_count (QueryOptions.sort queryOptions) ;;
  nproj <- Object_keys_count (QueryOptions.projection queryOptions) ;;
  Ok (stages
      ++ (if (0 <? Z.of_nat nsort)
          then [VObj [("$sort", QueryOptions.sort queryOptions)]] else [])
      ++ [VObj [("$facet", VObj [
            ("count", VArr [VObj [("$count", VStr "count")]]);
            ("items", VArr (
               [ VObj [("$skip", VInt (QueryOptions.skip queryOptions))];
                 VObj [("$limit",
                        VInt (js_add (QueryOptions.limit queryOptions)
                                     (QueryOptions.skip queryOptions)))] ]
               ++ (if (0 <? Z.of_nat nproj)
                   then [VObj [("$project",
                                QueryOptions.projection queryOptions)]]
                   else []))%list)])]])%list.

End Converters.

(** ** The document store *)

(** The collection a request is bound to, as the answers it gives.
    [find] and [aggregate] stand for the call followed by [toArray()]. *)
Class Collection : Type := {
  aggregate : list jsval -> bool -> result (list jsval);
  find : jsval -> QueryOptions.t -> result (list jsval);
  count : jsval -> result jsval;
  insertMany : list jsval -> result Z;
}.

(** The store operations a route issues, in order. *)
Inductive call : Type :=
| Aggregate (pipeline : list jsval) (allowDiskUse : bool)
| Find (query : jsval) (options : QueryOptions.t)
| Count (query : jsval)
| InsertMany (docs : list jsval).

(** A computation that issues store operations and returns or throws. *)
Definition io (A : Type) : Type := (list call * result A)%type.

Definition ret {A} (a : A) : io A := ([], Ok a).

Definition lift {A} (r : result A) : io A := ([], r).

Definition io_bind {A B} (m : io A) (k : A -> io B) : io B :=
  match m with
  | (t, Ok a) => let '(t', r) := k a in ((t ++ t')%list, r)
  | (t, Throw e) => (t, Throw e)
  end.

Notation "x <~ m ;; k" := (io_bind m (fun x => k))
  (at level 61, m at next level, right associativity) : js_scope.

(** [Promise.all([a, b])]: both operations are issued; the result needs
    both answers. When both fail the first one's error is reported. *)
Definition Promise_all {A B} (a : io A) (b : io B) : io (A * B) :=
  let '(ta, ra) := a in
  let '(tb, rb) := b in
  ((ta ++ tb)%list,
   match ra, rb with
   | Ok x, Ok y => Ok (x, y)
   | Throw e, _ => Throw e
   | _, Throw e => Throw e
   end).

Module PageResult.
Record t : Type := {
  items : jsval;
  count : jsval;
}.
End PageResult.

(** [x.name] for the names the executor reads ([name], [items], [count]);
    none of them is a property of an array, a string, a number, a RegExp or
    a driver object. *)
Definition member (name : string) (x : jsval) : result jsval :=
  match x with
  | VObj d => Ok (field name d)
  | VUndefined | VNull =>
      Throw (TypeError "Cannot read properties of undefined")
  | _ => Ok VUndefined
  end.

(** [x.constructor.name]. An own property called [constructor] shadows the
    one inherited from the prototype. *)
Definition constructor_name (x : jsval) : result jsval :=
  match x with
  | VArr _ => Ok (VStr "Array")
  | VObj d =>
      match get "constructor" d with
      | Some c => member "name" c
      | None => Ok (VStr "Object")
      end
  | VBool _ => Ok (VStr "Boolean")
  | VNum _ => Ok (VStr "Number")
  | VStr _ => Ok (VStr "String")
  | VRegExp _ _ => Ok (VStr "RegExp")
  | VObjectId _ => Ok (VStr "ObjectId")
  | VBinary _ _ => Ok (VStr "Binary")
  | VUndefined | VNull =>
      Throw (TypeError "Cannot read properties of undefined")
  end.

(** [x.length]. *)
Definition length_of (x : jsval) : jsval :=
  match x with
  | VArr l => VInt (Z.of_nat (List.length l))
  | VStr s => VInt (Z.of_nat (String.length s))
  | VObj d => field "length" d
  | _ => VUndefined
  end.

(** [x === s] for a string [s]. *)
Definition is_str (s : string) (x : jsval) : bool :=
  match x with
  | VStr s' => String.eqb s' s
  | _ => false
  end.

Section Executor.
Context {rt : Runtime} {bson : Bson} {coll : Collection}.
Variable config : Config.

Definition ToNumber (x : jsval) : num :=
  match x with
  | VUndefined => NaN
  | VNull => Int 0
  | VBool b => Int (if b then 1 else 0)
  | VNum n => n
  | VStr s => Number s
  | _ => ToNumber_object x
  end.

(** [x > 0]: the operand converted to a number, NaN comparing false. *)
Definition gt_zero (x : jsval) : bool :=
  match ToNumber x with
  | Int z => 0 <? z
  | NaN => false
  end.

Definition aggregateM (pipeline : list jsval) (adu : bool)
    : io (list jsval) :=
  ([Aggregate pipeline adu], aggregate pipeline adu).

Definition findM (q : jsval) (o : QueryOptions.t) : io (list jsval) :=
  ([Find q o], find q o).

Definition countM (q : jsval) : io jsval :=
  ([Count q], count q).

(** [req.query.runAggregate === 'on' && query.constructor.name === 'Array'];
    the right operand is evaluated only when the left one holds. *)
Definition aggregate_requested (req : request) (query : jsval)
    : result bool :=
  if match Query.runAggregate (params req) with
     | Some s => String.eqb s "on"
     | None => false
     end
  then name <- constructor_name query ;; Ok (is_str "Array" name)
  else Ok false.

(** [count.at(0)?.count] *)
Definition first_count (count : jsval) : result jsval :=
  first <- match count with
           | VArr l => Ok (hd VUndefined l)
           | VStr s => Ok (hd VUndefined (chars s))
           | VUndefined | VNull =>
               Throw (TypeError "Cannot read properties of undefined")
           | _ => Throw (TypeError "count.at is not a function")
           end ;;
  match first with
  | VUndefined | VNull => Ok VUndefined
  | _ => member "count" first
  end.

(** [queryOptions.allowDiskUse = true], under its guard. *)
Definition with_disk_use (queryOptions : QueryOptions.t) : QueryOptions.t :=
  if allowDiskUse config && negb (awsDocumentDb config) then
    {| QueryOptions.sort := QueryOptions.sort queryOptions;
       QueryOptions.limit := QueryOptions.limit queryOptions;
       QueryOptions.skip := QueryOptions.skip queryOptions;
       QueryOptions.projection := QueryOptions.projection queryOptions;
       QueryOptions.allowDiskUse := Some true |}
  else queryOptions.

(** The tail of [_getItemsAndCount]: the filtered find and the count,
    joined by [Promise.all]. *)
Definition direct (query : jsval) (queryOptions : QueryOptions.t)
    : io PageResult.t :=
  let queryOptions := with_disk_use queryOptions in
  ic <~ Promise_all (findM query queryOptions) (countM query) ;;
  ret {| PageResult.items := VArr (fst ic); PageResult.count := snd ic |}.

Definition _getItemsAndCount (req : request) (queryOptions : QueryOptions.t)
    : io PageResult.t :=
  query <~ lift (_getQuery req) ;;
  isArray <~ lift (aggregate_requested req query) ;;
  if isArray then
    if gt_zero (length_of query) then
      queryAggregate <~ lift (_getAggregatePipeline query queryOptions) ;;
      results <~ aggregateM queryAggregate (allowDiskUse config) ;;
      (* const [resultArray] = results; const { items, count } = resultArray *)
      let resultArray := hd VUndefined results in
      items <~ lift (member "items" resultArray) ;;
      count <~ lift (member "count" resultArray) ;;
      n <~ lift (first_count count) ;;
      ret {| PageResult.items := items; PageResult.count := n |}
    else direct (VObj []) queryOptions
  else direct query queryOptions.

End Executor.

(** ** The size guard of [viewCollection] *)

(** The first of the two UTF-16 code units of a code point above U+FFFF,
    from the four bytes of the code point, as its own three bytes. *)
Definition high_surrogate (b1 b2 b3 : ascii) : string :=
  let cp := ((N_of_ascii b1 mod 8) * 262144 + (N_of_ascii b2 mod 64) * 4096
             + (N_of_ascii b3 mod 64) * 64)%N in
  let h := (55296 + (cp - 65536) / 1024)%N in
  String (ascii_of_N 237)
    (String (ascii_of_N (128 + (h / 64) mod 64))
       (String (ascii_of_N (128 + h mod 64)) "")).

(** [s.slice(0, n)]: the first [n] UTF-16 code units. A code point of one,
    two or three bytes is one unit; one of four bytes is two units, and a
    slice that ends between them keeps the first. *)
Fixpoint slice (n : nat) (s : string) : string :=
  match n, s with
  | O, _ => ""
  | _, EmptyString => ""
  | S n1, String b1 r1 =>
      if (N_of_ascii b1 <? 192)%N then String b1 (slice n1 r1)
      else
        match r1 with
        | EmptyString => s
        | String b2 r2 =>
            if (N_of_ascii b1 <? 224)%N
            then String b1 (String b2 (slice n1 r2))
            else
              match r2 with
              | EmptyString => s
              | String b3 r3 =>
                  if (N_of_ascii b1 <? 240)%N
                  then String b1 (String b2 (String b3 (slice n1 r3)))
                  else
                    match r3 with
                    | EmptyString => s
                    | String b4 r4 =>
                        match n1 with
                        | O => high_surrogate b1 b2 b3
                        | S n2 =>
                            String b1
                              (String b2
                                 (String b3 (String b4 (slice n2 r4))))
                        end
                    end
              end
        end
  end.

(** [s.slice(0, 25)] *)
Definition slice25 (s : string) : string := slice 25 s.

Section SizeGuard.
Context {rt : Runtime} {utils : Utils}.
Variable config : Config.

(** The object literal both passes assign; [item[prop]] and [item._id]
    are read before the assignment takes place. *)
Definition stub (display : string) (maxSize : Z) (item : doc)
    (prop : string) : jsval :=
  VObj [ ("attribu", VStr prop);
         ("display", VStr display);
         ("humanSz", VStr (bytesToSize (roughSizeOfObject (field prop item))));
         ("maxSize", VStr (bytesToSize maxSize));
         ("preview", VStr (slice25 (JSON_stringify (field prop item))));
         ("roughSz", VInt (roughSizeOfObject (field prop item)));
         ("_id", field "_id" item) ].

(** Body of the first inner loop. *)
Definition prepProp (item : doc) (prop : string) : doc :=
  if roughSizeOfObject (field prop item) >? maxPropSize config
  then set prop (stub "*** LARGE PROPERTY ***" (maxPropSize config) item prop)
           item
  else item.

(** Body of the second inner loop. *)
Definition prepRowProp (item : doc) (prop : string) : doc :=
  if negb (String.eqb prop "_id")
     && (roughSizeOfObject (field prop item) >? 200)
  then set prop (stub "*** LARGE ROW ***" (maxRowSize config) item prop) item
  else item.

(** [for (const prop in item)]: the property names are those of the item
    when the loop starts; the body assigns to existing properties only. *)
Definition perFieldPass (item : doc) : doc :=
  fold_left prepProp (keys item) item.

Definition perRowPass (item : doc) : doc :=
  if roughSizeOfObject (VObj item) >? maxRowSize config
  then fold_left prepRowProp (keys item) item
  else item.

Definition sizeGuard (item : doc) : doc := perRowPass (perFieldPass item).

(** The [docs] array [viewCollection] hands to the view. *)
Definition viewCollection_docs (items : list doc) : list doc :=
  map sizeGuard items.

End SizeGuard.

(** ** The importer *)

Inductive body : Type :=
| Text (s : string)
| Inserted (insertedCount : Z).   (* `${insertedCount} document(s) inserted` *)

Record response : Type := {
  status : Z;
  sent : body;
}.

(** [s.split('\n')] *)
Fixpoint split_lines (s : string) : list string :=
  match s with
  | EmptyString => [EmptyString]
  | String c r =>
      if Ascii.eqb c (ascii_of_nat 10) then EmptyString :: split_lines r
      else match split_lines r with
           | l :: ls => String c l :: ls
           | [] => [String c EmptyString]
           end
  end.

(** The string without its trailing white space: cut where what is left
    is white space only. *)
Fixpoint trimEnd (s : string) : string :=
  match s with
  | EmptyString => EmptyString
  | String c r => if all_ws s then EmptyString else String c (trimEnd r)
  end.

Definition trim (s : string) : string := trimEnd (skip_ws s).

Definition nonempty (s : string) : bool := negb (String.eqb s "").

(** [content.split('\n').map((line) => line.trim()).filter(Boolean)] *)
Definition lines_of (fileContent : string) : list string :=
  filter nonempty (map trim (split_lines fileContent)).

Section Importer.
Context {bson : Bson} {coll : Collection}.

Definition invalid_file (f : file) : bool :=
  negb (existsb (String.eqb (mimetype f)) ALLOWED_MIME_TYPES)
  || match data f with
     | Some _ => false
     | None => true
     end.

(** The inner loop: [docs.push(...EJSON.parse(line))]; a throw leaves the
    loop (and, in the route, returns the 400 response). *)
Fixpoint parse_lines (lines : list string) (docs : list jsval)
    : result (list jsval) :=
  match lines with
  | [] => Ok docs
  | line :: lines' =>
      parsedData <- EJSON_parse line ;;
      elems <- spread parsedData ;;
      parse_lines lines' (docs ++ elems)%list
  end.

Fixpoint parse_files (fs : list file) (docs : list jsval)
    : result (list jsval) :=
  match fs with
  | [] => Ok docs
  | f :: fs' =>
      docs' <- parse_lines
                 (lines_of (match data f with Some s => s | None => "" end))
                 docs ;;
      parse_files fs' docs'
  end.

Definition importCollection (req : request) : list call * response :=
  match files req with
  | None => ([], {| status := 400; sent := Text "Missing file" |})
  | Some files =>
      if existsb invalid_file files
      then ([], {| status := 400; sent := Text "Bad file" |})
      else
        match parse_files files [] with
        | Throw _ =>
            ([], {| status := 400; sent := Text "Bad file content" |})
        | Ok docs =>
            ([InsertMany docs],
             match insertMany docs with
             | Ok n => {| status := 200; sent := Inserted n |}
             | Throw _ => {| status := 500; sent := Text "Server error" |}
             end)
        end
  end.

End Importer.

(** ** The column list of [viewCollection] *)

(** [arr.indexOf(value)]: the first index, -1 when there is none. *)
Fixpoint indexOf (value : string) (arr : list string) : Z :=
  match arr with
  | [] => -1
  | x :: arr' =>
      if String.eqb x value then 0
      else let i := indexOf value arr' in if i <? 0 then -1 else i + 1
  end.

(** [arr.filter((value, index) => f(value, index))], from a start index. *)
Fixpoint filter_from {A : Type} (f : A -> Z -> bool) (index : Z)
    (arr : list A) : list A :=
  match arr with
  | [] => []
  | value :: arr' =>
      if f value index then value :: filter_from f (index + 1) arr'
      else filter_from f (index + 1) arr'
  end.

(** [arr.filter((value, index, arr) => arr.indexOf(value) === index)] *)
Definition remove_duplicates (arr : list string) : list string :=
  filter_from (fun value index => indexOf value arr =? index) 0 arr.

(** The [columns] of the view: [Object.keys] of every prepared document,
    flattened, duplicates removed. *)
Definition columns_of (docs : list doc) : list string :=
  remove_duplicates (List.concat (map keys docs)).

(** ** Administrative routes *)

Definition dquote : string := String (ascii_of_nat 34) EmptyString.

(** [config.options.readOnly === true] and [config.options.noDelete === true] *)
Record Guards : Type := {
  readOnly : bool;
  noDelete : bool;
}.

(** [res.locals.baseHref], [req.dbName], [req.collectionName] *)
Record Place : Type := {
  baseHref : string;
  dbName : string;
  collectionName : string;
}.

(** The operations the administrative routes issue on the collection, the
    database and the connection, as the answers they give. *)
Module Store.
Class t : Type := {
  deleteMany : jsval -> result Z;          (* deletedCount *)
  drop : result unit;
  dropIndex : string -> result unit;
  createIndex : jsval -> result unit;
  createCollection : option string -> result unit;
  rename : option string -> result unit;
  updateCollections : result unit;
}.
End Store.

Inductive admin_call : Type :=
| DeleteMany (query : jsval)
| Drop
| DropIndex (name : string)
| CreateIndex (doc : jsval)
| CreateCollection (name : option string)
| Rename (name : option string)
| UpdateCollections.

(** What the route leaves in the session. *)
Inductive notice : Type :=
| SessionError (msg : string)
| SessionSuccess (msg : string)
(* deletedCount + ' documents deleted from [collectionName]' *)
| DocumentsDeleted (deletedCount : Z) (collectionName : string).

Record outcome : Type := {
  session : notice;
  redirect : string;
}.

Definition back (n : notice) : outcome :=
  {| session := n; redirect := "back" |}.

(** ['' + error]: the name and the message of the error; a store error
    carries its rendered text. *)
Definition exn_text (e : exn) : string :=
  let render name msg :=
    if String.eqb msg "" then name else name ++ ": " ++ msg in
  match e with
  | Error msg => render "Error" msg
  | TypeError msg => render "TypeError" msg
  | SyntaxError msg => render "SyntaxError" msg
  | StoreError msg => msg
  end.

(** What the administrative routes use of [lib/bson.js] and [lib/utils.js]. *)
Record Validation : Type := {
  error : bool;
  message : string;
}.

Class Helpers : Type := {
  toBSON : string -> result jsval;
  buildCollectionURL : string -> string -> option string -> string;
  validateCollectionName : option string -> Validation;
}.

Section Admin.
Context {rt : Runtime} {bson : Bson} {store : Store.t} {helpers : Helpers}.
Variable guards : Guards.
Variable place : Place.

Definition deleteCollection (req : request) : list admin_call * outcome :=
  if readOnly guards then
    ([], back (SessionError "Error: config.options.readOnly is set to true"))
  else if noDelete guards then
    ([], back (SessionError "Error: config.options.noDelete is set to true"))
  else if truthy (Query.query (params req)) then
    match _getQuery req with
    | Throw e => ([], back (SessionError ("Something went wrong: " ++ exn_text e)))
    | Ok query =>
        ([DeleteMany query],
         match Store.deleteMany query with
         | Ok deletedCount =>
             {| session := DocumentsDeleted deletedCount (collectionName place);
                redirect := baseHref place ++ "db/" ++ dbName place ++ "/"
                            ++ collectionName place |}
         | Throw e => back (SessionError ("Something went wrong: " ++ exn_text e))
         end)
    end
  else
    match Store.drop with
    | Throw e =>
        ([Drop], back (SessionError ("Something went wrong: " ++ exn_text e)))
    | Ok _ =>
        ([Drop; UpdateCollections],
         match Store.updateCollections with
         | Throw e => back (SessionError ("Something went wrong: " ++ exn_text e))
         | Ok _ =>
             {| session := SessionSuccess ("Collection  " ++ dquote
                                           ++ collectionName place ++ dquote
                                           ++ " deleted!");
                redirect := baseHref place ++ "db/" ++ dbName place |}
         end)
    end.

(** [name] is [req.query.name]. *)
Definition dropIndex (name : option string) : list admin_call * outcome :=
  if negb (truthy name) then
    ([], back (SessionError "Error: missing name parameter"))
  else if readOnly guards then
    ([], back (SessionError "Error: config.options.readOnly is set to true"))
  else if noDelete guards then
    ([], back (SessionError "Error: config.options.noDelete is set to true"))
  else
    ([DropIndex (ToString name)],
     match Store.dropIndex (ToString name) with
     | Ok _ => back (SessionSuccess "Index deleted!")
     | Throw e => back (SessionError ("Error: " ++ exn_text e))
     end).

(** [doc] is [req.body.index]. *)
Definition addIndex (doc : option string) : list admin_call * outcome :=
  match doc with
  | None | Some EmptyString =>
      ([], back (SessionError "You forgot to enter a index!"))
  | Some doc =>
      match toBSON doc with
      | Throw _ => ([], back (SessionError "JSON is not valid!"))
      | Ok docBSON =>
          ([CreateIndex docBSON],
           match Store.createIndex docBSON with
           | Ok _ =>
               {| session := SessionSuccess "Index created!";
                  redirect := buildCollectionURL (baseHref place) (dbName place)
                                (Some (collectionName place)) |}
           | Throw e =>
               back (SessionError ("Something went wrong: " ++ exn_text e))
           end)
      end
  end.

(** [name] is [req.body.collection]. *)
Definition addCollection (name : option string) : list admin_call * outcome :=
  let validation := validateCollectionName name in
  if error validation then ([], back (SessionError (message validation)))
  else
    match Store.createCollection name with
    | Throw e =>
        ([CreateCollection name],
         back (SessionError ("Something went wrong: " ++ exn_text e)))
    | Ok _ =>
        ([CreateCollection name; UpdateCollections],
         match Store.updateCollections with
         | Throw e =>
             back (SessionError ("Something went wrong: " ++ exn_text e))
         | Ok _ =>
             {| session := SessionSuccess "Collection created!";
                redirect := buildCollectionURL (baseHref place) (dbName place)
                              name |}
         end)
    end.

Definition renameCollection (name : option string)
    : list admin_call * outcome :=
  let validation := validateCollectionName name in
  if error validation then ([], back (SessionError (message validation)))
  else
    match Store.rename name with
    | Throw e =>
        ([Rename name],
         back (SessionError ("Something went wrong: " ++ exn_text e)))
    | Ok _ =>
        ([Rename name; UpdateCollections],
         match Store.updateCollections with
         | Throw e =>
             back (SessionError ("Something went wrong: " ++ exn_text e))
         | Ok _ =>
             {| session := SessionSuccess "Collection renamed!";
                redirect := buildCollectionURL (baseHref place) (dbName place)
                              name |}
         end)
    end.

End Admin.

(** * Vocabulary of the properties *)

(** ** Aggregation pipeline *)

Definition facet (skip limit : Z) (project : list jsval) : jsval :=
  VObj [("$facet", VObj [
    ("count", VArr [VObj [("$count", VStr "count")]]);
    ("items", VArr ([ VObj [("$skip", VInt skip)];
                      VObj [("$limit", VInt (js_add limit skip))] ]
                    ++ project))])].

(** ** Type tags and shapes *)

Definition type_tags : list string := ["J"; "N"; "O"; "R"; "U"; "S"].

(** [h] is [raw] without its hyphens. *)
Definition hyphen_free (raw h : string) : Prop :=
  list_ascii_of_string h
  = filter (fun c => negb (Ascii.eqb c "-"%char)) (list_ascii_of_string raw).

Section Shapes.
Context {rt : Runtime}.

(** What the converter of a tag is to return on a raw value (section 4.1):
    the JSON value of the text or the parser's error; the number the text
    coerces to; the identifier of 24 hexadecimal characters or an error; the
    case-insensitive pattern or an error; the binary value of subtype UUID
    holding the bytes of the hexadecimal text left once the hyphens are
    gone, 16 of them for 32 digits; the text itself. *)
Definition converts (tag raw : string) (r : result jsval) : Prop :=
  if String.eqb tag "J" then r = JSON_parse raw
  else if String.eqb tag "N" then r = Ok (VNum (Number raw))
  else if String.eqb tag "O" then
    if (String.length raw =? 24)%nat && all_hex raw
    then r = Ok (VObjectId raw) else exists e, r = Throw e
  else if String.eqb tag "R" then
    if RegExp_valid raw then r = Ok (VRegExp raw "i")
    else exists e, r = Throw e
  else if String.eqb tag "U" then
    exists h,
      hyphen_free raw h
      /\ r = Ok (VBinary (Buffer_from_hex h) SUBTYPE_UUID)
      /\ (all_hex h = true -> String.length h = 32%nat ->
          List.length (Buffer_from_hex h) = 16%nat)
  else if String.eqb tag "S" then r = Ok (VStr raw)
  else False.

End Shapes.

(** ** Raw skip parameters *)

(** A parsed number below the overflow of doubles. *)
Definition finite (n : num) : Prop :=
  match n with
  | Int z => Z.abs z < 2 ^ 1024
  | NaN => True
  end.

Definition minus_sign (s : string) : bool :=
  match skip_ws s with
  | String c _ => Ascii.eqb c "-"%char
  | EmptyString => false
  end.

(** ** Redaction stubs and documents within the thresholds *)

(** The keys of a stub, in the order the object literal lists them. *)
Definition stub_keys : list string :=
  ["attribu"; "display"; "humanSz"; "maxSize"; "preview"; "roughSz"; "_id"].

Fixpoint same_keys (a b : list string) : bool :=
  match a, b with
  | [], [] => true
  | x :: a', y :: b' => String.eqb x y && same_keys a' b'
  | _, _ => false
  end.

Definition is_stub (v : jsval) : bool :=
  match v with
  | VObj d => same_keys (keys d) stub_keys
  | _ => false
  end.

Section GuardVocabulary.
Context {rt : Runtime} {utils : Utils}.
Variable config : Config.

Local Abbreviation size := roughSizeOfObject.

Definition fields_within (bound : Z) (item : doc) : Prop :=
  Forall (fun kv => size (snd kv) <= bound) item.

Definition row_fields_within (item : doc) : Prop :=
  Forall (fun kv => fst kv = "_id" \/ size (snd kv) <= 200) item.

(** The stub, from the value it replaces and the identifier it records. *)
Definition stub_of (display : string) (maxSize : Z) (prop : string)
    (v id : jsval) : jsval :=
  VObj [ ("attribu", VStr prop);
         ("display", VStr display);
         ("humanSz", VStr (bytesToSize (size v)));
         ("maxSize", VStr (bytesToSize maxSize));
         ("preview", VStr (slice25 (JSON_stringify v)));
         ("roughSz", VInt (size v));
         ("_id", id) ].

(** [v'] is [v], or a stub that describes [v] as the value of [k]. *)
Definition stubbed_once (k : string) (v v' : jsval) : Prop :=
  v' = v \/ exists display maxSize id, v' = stub_of display maxSize k v id.

(** What two passes can make of the value [v] of property [k]. *)
Definition kept_or_stubbed (k : string) (v v' : jsval) : Prop :=
  exists w, stubbed_once k v w /\ stubbed_once k w v'.

(** [out] has the properties of [item], name by name in their order, each
    value kept or replaced by a stub that describes it. *)
Definition same_document (item out : doc) : Prop :=
  Forall2 (fun kv kv' => fst kv' = fst kv
                         /\ kept_or_stubbed (fst kv) (snd kv) (snd kv'))
          item out.

(** The first loop as one pass over the properties in order; [id] is
    [item._id] as the loop body reads it at that point. *)
Fixpoint fieldPass (id : jsval) (item : doc) : doc :=
  match item with
  | [] => []
  | (k, v) :: rest =>
      if size v >? maxPropSize config then
        let s := stub_of "*** LARGE PROPERTY ***" (maxPropSize config) k v id in
        (k, s) :: fieldPass (if String.eqb k "_id" then s else id) rest
      else (k, v) :: fieldPass id rest
  end.

Definition rowField (id : jsval) (kv : string * jsval) : string * jsval :=
  if negb (String.eqb (fst kv) "_id") && (size (snd kv) >? 200)
  then (fst kv,
        stub_of "*** LARGE ROW ***" (maxRowSize config) (fst kv) (snd kv) id)
  else kv.

Definition rowMap (id : jsval) (item : doc) : doc := map (rowField id) item.

(** Every stub of the document is within the per-field threshold and,
    when the row is over the per-row threshold, every stub other than that
    of [_id] is within 200. *)
Definition stubs_within (item : doc) : Prop :=
  Forall (fun kv => is_stub (snd kv) = true ->
                    size (snd kv) <= maxPropSize config) item
  /\ (size (VObj item) > maxRowSize config ->
      Forall (fun kv => is_stub (snd kv) = true ->
                        fst kv = "_id" \/ size (snd kv) <= 200) item).

End GuardVocabulary.

(** ** Test doubles

    Small stand-ins for the interfaces, used to run the model on concrete
    requests. Each one agrees with what it stands for on the inputs the
    examples below feed it. *)

Module Double.

Definition dq : string := String (ascii_of_nat 34) EmptyString.

Definition string_of_Z (z : Z) : string :=
  NilZero.string_of_int (Z.to_int z).

Definition upper (c : ascii) : ascii :=
  let n := nat_of_ascii c in
  if ((97 <=? n) && (n <=? 122))%nat then ascii_of_nat (n - 32) else c.

Fixpoint toUpperCase (s : string) : string :=
  match s with
  | EmptyString => EmptyString
  | String c r => String (upper c) (toUpperCase r)
  end.

(** Decimal integer literals; anything else is not a number here. *)
Fixpoint all_digits (s : string) (acc : Z) : option Z :=
  match s with
  | EmptyString => Some acc
  | String c r =>
      match digit c with
      | Some d => all_digits r (10 * acc + d)
      | None => None
      end
  end.

Definition Number (s : string) : num :=
  match trim s with
  | EmptyString => Int 0
  | String "-"%char (String _ _ as r) =>
      match all_digits r 0 with Some z => Int (- z) | None => NaN end
  | String "+"%char (String _ _ as r) =>
      match all_digits r 0 with Some z => Int z | None => NaN end
  | t => match all_digits t 0 with Some z => Int z | None => NaN end
  end.

(** Unsigned integer literals and one object literal. *)
Definition JSON_parse (s : string) : result jsval :=
  if String.eqb s
       ("{" ++ dq ++ "name" ++ dq ++ ":" ++ dq ++ "Array" ++ dq ++ "}")
  then Ok (VObj [("name", VStr "Array")])
  else
    match s with
    | EmptyString => Throw (SyntaxError "Unexpected end of JSON input")
    | _ =>
        match all_digits s 0 with
        | Some z => Ok (VInt z)
        | None => Throw (SyntaxError "Unexpected token")
        end
    end.

Fixpoint join (sep : string) (l : list string) : string :=
  match l with
  | [] => ""
  | [x] => x
  | x :: l' => x ++ sep ++ join sep l'
  end.

Fixpoint JSON_stringify (v : jsval) : string :=
  match v with
  | VNull | VUndefined | VNum NaN => "null"
  | VBool true => "true"
  | VBool false => "false"
  | VNum (Int z) => string_of_Z z
  | VStr s => dq ++ s ++ dq
  | VArr l => "[" ++ join "," (map JSON_stringify l) ++ "]"
  | VObj d =>
      "{" ++ join "," (map (fun kv => dq ++ fst kv ++ dq ++ ":"
                                        ++ JSON_stringify (snd kv)) d) ++ "}"
  | VObjectId h => dq ++ h ++ dq
  | VRegExp _ _ | VBinary _ _ => "{}"
  end.

(** A few literals of the query language. *)
Definition toSafeBSON (s : string) : jsval :=
  if String.eqb s "{}" then VObj []
  else if String.eqb s "[]" then VArr []
  else if String.eqb s "[{$match:{x:1}}]"
    then VArr [VObj [("$match", VObj [("x", VInt 1)])]]
  else if String.eqb s "{x:1}" then VObj [("x", VInt 1)]
  else if String.eqb s "{constructor:{name:'Array'},length:1}"
    then VObj [("constructor", VObj [("name", VStr "Array")]);
               ("length", VInt 1)]
  else VNull.

(** A few lines of an import file. *)
Definition EJSON_parse (s : string) : result jsval :=
  if String.eqb s "{}" then Ok (VObj [])
  else if String.eqb s "[{}]" then Ok (VArr [VObj []])
  else if String.eqb s ("{" ++ dq ++ "a" ++ dq ++ ":1}")
    then Ok (VObj [("a", VInt 1)])
  else if String.eqb s ("{" ++ dq ++ "b" ++ dq ++ ":2}")
    then Ok (VObj [("b", VInt 2)])
  else if String.eqb s ("[{" ++ dq ++ "a" ++ dq ++ ":1}]")
    then Ok (VArr [VObj [("a", VInt 1)]])
  else if String.eqb s ("[{" ++ dq ++ "b" ++ dq ++ ":2}]")
    then Ok (VArr [VObj [("b", VInt 2)]])
  else Throw (SyntaxError "Unexpected token").

(** Modelled from the spec: [roughSizeOfObject] of [lib/utils.js]
    (section 4.7: strings and buffers contribute their length, structures
    the sum over their parts). Numbers count 8 and booleans 4. *)
Fixpoint roughSizeOfObject (v : jsval) : Z :=
  match v with
  | VStr s => Z.of_nat (String.length s)
  | VBinary b _ => Z.of_nat (List.length b)
  | VNum _ => 8
  | VBool _ => 4
  | VArr l => fold_right Z.add 0 (map roughSizeOfObject l)
  | VObj d => fold_right Z.add 0 (map (fun kv => roughSizeOfObject (snd kv)) d)
  | VObjectId _ => 12
  | VRegExp p _ => Z.of_nat (String.length p)
  | VUndefined | VNull => 0
  end.

Definition bytesToSize (n : Z) : string := string_of_Z n ++ " Bytes".

(** A collection that matches nothing and accepts every insertion. *)
Definition aggregate (pipeline : list jsval) (adu : bool)
    : result (list jsval) :=
  Ok [VObj [("count", VArr []); ("items", VArr [])]].

Definition find (q : jsval) (o : QueryOptions.t) : result (list jsval) :=
  Ok [].

Definition count (q : jsval) : result jsval := Ok (VInt 0).

Definition insertMany (docs : list jsval) : result Z :=
  Ok (Z.of_nat (List.length docs)).

End Double.

Definition double_runtime : Runtime := {|
  toUpperCase := Double.toUpperCase;
  Number := Double.Number;
  JSON_parse := Double.JSON_parse;
  RegExp_valid := fun _ => true;
  JSON_stringify := Double.JSON_stringify;
  ToNumber_object := fun _ => NaN |}.

Definition double_bson : Bson := {|
  toSafeBSON := Double.toSafeBSON;
  EJSON_parse := Double.EJSON_parse;
  driver_keys := fun _ => O |}.

Definition double_utils : Utils := {|
  roughSizeOfObject := Double.roughSizeOfObject;
  bytesToSize := Double.bytesToSize |}.

Definition double_collection : Collection := {|
  aggregate := Double.aggregate;
  find := Double.find;
  count := Double.count;
  insertMany := Double.insertMany |}.

Definition simple (key value type : string) : request :=
  {| params := {| Query.key := Some key; Query.value := Some value;
                  Query.type := Some type; Query.query := None;
                  Query.sort := None; Query.skip := None;
                  Query.projection := None; Query.runAggregate := None |};
     files := None |}.

(** ** Sample requests, configurations and documents *)

Definition with_skip (raw : option string) : request :=
  {| params := {| Query.key := None; Query.value := None;
                  Query.type := None; Query.query := None;
                  Query.sort := None; Query.skip := raw;
                  Query.projection := None; Query.runAggregate := None |};
     files := None |}.

Definition default_config : Config :=
  {| documentsPerPage := 10; maxPropSize := 100000; maxRowSize := 1000000;
     allowDiskUse := false; awsDocumentDb := false |}.

Definition with_runAggregate (req : request) : request :=
  {| params := {| Query.key := Query.key (params req);
                  Query.value := Query.value (params req);
                  Query.type := Query.type (params req);
                  Query.query := Query.query (params req);
                  Query.sort := Query.sort (params req);
                  Query.skip := Query.skip (params req);
                  Query.projection := Query.projection (params req);
                  Query.runAggregate := Some "on" |};
     files := files req |}.

Definition with_query (jsonQuery : string) : request :=
  {| params := {| Query.key := None; Query.value := None;
                  Query.type := None; Query.query := Some jsonQuery;
                  Query.sort := None; Query.skip := None;
                  Query.projection := None; Query.runAggregate := None |};
     files := None |}.

Definition constructor_request : request :=
  with_runAggregate
    (simple "constructor"
       ("{" ++ Double.dq ++ "name" ++ Double.dq ++ ":"
            ++ Double.dq ++ "Array" ++ Double.dq ++ "}")
       "j").

Definition match_request : request :=
  with_runAggregate (with_query "[{$match:{x:1}}]").

Definition nl : string := String (ascii_of_nat 10) EmptyString.

(** U+00A0, the no-break space, and U+FEFF, the byte-order mark. *)
Definition nbsp : string :=
  String (ascii_of_nat 194) (String (ascii_of_nat 160) EmptyString).

Definition bom : string :=
  String (ascii_of_nat 239)
    (String (ascii_of_nat 187) (String (ascii_of_nat 191) EmptyString)).

Definition upload (content : string) : request :=
  {| params := {| Query.key := None; Query.value := None;
                  Query.type := None; Query.query := None;
                  Query.sort := None; Query.skip := None;
                  Query.projection := None; Query.runAggregate := None |};
     files := Some [{| mimetype := "application/json";
                       data := Some content |}] |}.

Definition line_a : string := "{" ++ Double.dq ++ "a" ++ Double.dq ++ ":1}".
Definition line_b : string := "{" ++ Double.dq ++ "b" ++ Double.dq ++ ":2}".

Fixpoint replicate (n : nat) (c : ascii) : string :=
  match n with
  | O => EmptyString
  | S n' => String c (replicate n' c)
  end.

Definition small_config : Config :=
  {| documentsPerPage := 10; maxPropSize := 50; maxRowSize := 1000;
     allowDiskUse := false; awsDocumentDb := false |}.

(** Thresholds far above the size of a stub, however sizes are counted. *)
Definition wide_config : Config :=
  {| documentsPerPage := 10; maxPropSize := 1000; maxRowSize := 100000;
     allowDiskUse := false; awsDocumentDb := false |}.

(** A document whose [_id] is a string of 60 characters. *)
Definition long_id_item : doc :=
  [("_id", VStr (replicate 60 "f")); ("n", VInt 1)].

(** A document with one long field. *)
Definition bio_item (n : nat) : doc :=
  [("_id", VInt 1); ("bio", VStr (replicate n "a"))].

(** ** Vocabulary and doubles of the administrative routes *)

Definition is_error (n : notice) : bool :=
  match n with
  | SessionError _ => true
  | _ => false
  end.

(** The request with its raw [query] parameter replaced. *)
Definition with_raw_query (jsonQuery : option string) (req : request)
    : request :=
  {| params := {| Query.key := Query.key (params req);
                  Query.value := Query.value (params req);
                  Query.type := Query.type (params req);
                  Query.query := jsonQuery;
                  Query.sort := Query.sort (params req);
                  Query.skip := Query.skip (params req);
                  Query.projection := Query.projection (params req);
                  Query.runAggregate := Query.runAggregate (params req) |};
     files := files req |}.

(** A store that accepts every administrative operation. *)
Definition double_store : Store.t := {|
  Store.deleteMany := fun _ => Ok 3;
  Store.drop := Ok tt;
  Store.dropIndex := fun _ => Ok tt;
  Store.createIndex := fun _ => Ok tt;
  Store.createCollection := fun _ => Ok tt;
  Store.rename := fun _ => Ok tt;
  Store.updateCollections := Ok tt |}.

Definition double_helpers : Helpers := {|
  toBSON := fun s =>
    if String.eqb s "{x:1}" then Ok (VObj [("x", VInt 1)])
    else Throw (SyntaxError "Unexpected token");
  buildCollectionURL := fun base db name =>
    base ++ "db/" ++ db ++ "/" ++ ToString name;
  validateCollectionName := fun name =>
    if truthy name then {| error := false; message := "" |}
    else {| error := true;
            message := "You forgot to enter a collection name!" |} |}.

Definition no_guards : Guards := {| readOnly := false; noDelete := false |}.

Definition read_only : Guards := {| readOnly := true; noDelete := false |}.

Definition sample_place : Place :=
  {| baseHref := "/"; dbName := "shop"; collectionName := "orders" |}.

Definition upload_files (fs : list file) : request :=
  {| params := {| Query.key := None; Query.value := None;
                  Query.type := None; Query.query := None;
                  Query.sort := None; Query.skip := None;
                  Query.projection := None; Query.runAggregate := None |};
     files := Some fs |}.

(** A facet answer with one count document. *)
Definition one_count_store : Collection := {|
  aggregate := fun _ _ =>
    Ok [VObj [("count", VArr [VObj [("count", VInt 7)]]);
              ("items", VArr [VObj [("x", VInt 1)]])]];
  find := Double.find;
  count := Double.count;
  insertMany := Double.insertMany |}.

(** * Properties *)

(** ** Aggregation pipeline builder *)

(** C1. For a user pipeline that is a sequence of stages and query options
    whose sort and projection are mappings, the built pipeline is the user
    stages, then [{$sort: sort}] exactly when the sort mapping has a key, then
    one [$facet] stage, which is last; its [count] branch is
    [[{$count: "count"}]] and its [items] branch is [{$skip: skip}],
    [{$limit: limit + skip}] and then [{$project: projection}] exactly when
    the projection mapping has a key. *)
Theorem C1_aggregate_pipeline_shape {bson : Bson} :
  forall (stages : list jsval) (sort projection : doc) (skip limit : Z)
         (adu : option bool),
    _getAggregatePipeline (VArr stages)
      {| QueryOptions.sort := VObj sort; QueryOptions.limit := limit;
         QueryOptions.skip := skip; QueryOptions.projection := VObj projection;
         QueryOptions.allowDiskUse := adu |}
    = Ok (stages
          ++ match sort with
             | [] => []
             | _ :: _ => [VObj [("$sort", VObj sort)]]
             end
          ++ [facet skip limit
                match projection with
                | [] => []
                | _ :: _ => [VObj [("$project", VObj projection)]]
                end])%list.
Proof.
  intros stages sort projection skip limit adu.
  unfold _getAggregatePipeline, facet; cbn [spread bind Object_keys_count].
  cbn [QueryOptions.sort QueryOptions.projection QueryOptions.skip
       QueryOptions.limit].
  destruct sort as [|[k v] sort], projection as [|[k' v'] projection];
    reflexivity.
Qed.

(** The scenario of the specification: pipeline [[{$match: {x: 1}}]], sort
    [{y: 1}], skip 0, limit 20. *)
Example aggregate_pipeline_scenario {bson : Bson} :
  _getAggregatePipeline
    (VArr [VObj [("$match", VObj [("x", VInt 1)])]])
    {| QueryOptions.sort := VObj [("y", VInt 1)]; QueryOptions.limit := 20;
       QueryOptions.skip := 0; QueryOptions.projection := VObj [];
       QueryOptions.allowDiskUse := None |}
  = Ok [ VObj [("$match", VObj [("x", VInt 1)])];
         VObj [("$sort", VObj [("y", VInt 1)])];
         VObj [("$facet", VObj [
           ("count", VArr [VObj [("$count", VStr "count")]]);
           ("items", VArr [VObj [("$skip", VInt 0)];
                           VObj [("$limit", VInt 20)]])])] ].
Proof. reflexivity. Qed.

(** The stage that ends the built pipeline is the facet, whatever the user
    stages are. *)
Lemma aggregate_pipeline_last {bson : Bson} :
  forall pipeline queryOptions built,
    _getAggregatePipeline pipeline queryOptions = Ok built ->
    exists project,
      last built VUndefined
      = facet (QueryOptions.skip queryOptions)
              (QueryOptions.limit queryOptions) project.
Proof.
  intros pipeline o built. unfold _getAggregatePipeline.
  destruct (spread pipeline) as [stages|]; [|discriminate]. cbn [bind].
  destruct (Object_keys_count (QueryOptions.sort o)) as [ns|]; [|discriminate].
  destruct (Object_keys_count (QueryOptions.projection o)) as [np|];
    [|discriminate].
  cbn [bind]. intros [= <-].
  rewrite app_assoc, last_last. eexists. reflexivity.
Qed.

(** ** Query builder *)

Section QueryBuilder.
Context {rt : Runtime} {bson : Bson}.

Lemma converter_unknown (type : string) :
  ~ In type type_tags -> converter type converters = None.
Proof.
  intros H. unfold converters, converter.
  repeat match goal with
  | |- context [String.eqb ?t type] =>
      destruct (String.eqb_spec t type) as [E|_];
      [exfalso; apply H; subst type; unfold type_tags; simpl; auto 10|]
  end.
  reflexivity.
Qed.

Lemma strip_hyphens_free (raw : string) :
  hyphen_free raw (strip_hyphens raw).
Proof.
  unfold hyphen_free. induction raw as [|c r IH]; [reflexivity|].
  cbn [strip_hyphens list_ascii_of_string filter].
  destruct (Ascii.eqb c "-"); cbn [negb list_ascii_of_string];
    now rewrite IH.
Qed.

Lemma Buffer_from_hex_pairs (n : nat) :
  forall h, (String.length h <= n)%nat -> all_hex h = true ->
    List.length (Buffer_from_hex h) = Nat.div2 (String.length h).
Proof.
  induction n as [|n IH]; intros [|a [|b r]] Hn Hh; try reflexivity.
  - cbn in Hn. lia.
  - cbn [all_hex] in Hh. cbn [Buffer_from_hex String.length Nat.div2].
    destruct (hex a); [|discriminate]. destruct (hex b); [|discriminate].
    cbn [List.length]. f_equal. apply IH; [cbn in Hn; lia | exact Hh].
Qed.

Lemma Buffer_from_hex_length (h : string) :
  all_hex h = true ->
  List.length (Buffer_from_hex h) = Nat.div2 (String.length h).
Proof. apply (Buffer_from_hex_pairs (String.length h)). lia. Qed.

Lemma getQuery_simple (req : request) :
  truthy (Query.key (params req)) = true ->
  truthy (Query.value (params req)) = true ->
  _getQuery req =
    let type :=
      ToString (option_map toUpperCase (Query.type (params req))) in
    match converter type converters with
    | None => Throw (Error ("Invalid query type: " ++ type))
    | Some convert =>
        value <- convert (ToString (Query.value (params req))) ;;
        Ok (VObj [(ToString (Query.key (params req)), value)])
    end.
Proof. intros Hk Hv. unfold _getQuery. rewrite Hk, Hv. reflexivity. Qed.

Lemma getQuery_raw (req : request) :
  truthy (Query.key (params req)) && truthy (Query.value (params req))
    = false ->
  _getQuery req =
    if truthy (Query.query (params req)) then
      match toSafeBSON (ToString (Query.query (params req))) with
      | VNull => Throw (Error "Query entered is not valid")
      | result => Ok result
      end
    else Ok (VObj []).
Proof. intros H. unfold _getQuery. rewrite H. reflexivity. Qed.

(** C4. When [key] and [value] are both present (truthy, as the builder
  tests them) and the upper-cased type tag is none of J, N, O, R, U, S
  (an absent tag included), the builder throws the invalid-type error and
  returns no filter; and for each of the six tags the table has a converter
  which, on every raw value, returns what the tag declares: the parsed
  JSON value, the number, the 24-digit identifier, the case-insensitive
  pattern, the binary UUID of the text without its hyphens (16 bytes for 32
  digits), the text itself, and an error where the text is no identifier or
  no pattern. *)
Theorem C4_type_tag_checked (req : request) :
truthy (Query.key (params req)) = true ->
truthy (Query.value (params req)) = true ->
let type := ToString (option_map toUpperCase (Query.type (params req))) in
(~ In type type_tags ->
 _getQuery req = Throw (Error ("Invalid query type: " ++ type)))
/\ (forall tag,
      In tag type_tags ->
      exists convert,
        converter tag converters = Some convert
        /\ forall raw, converts tag raw (convert raw)).
Proof.
intros Hk Hv type. split.
- intros Hbad. rewrite (getQuery_simple req Hk Hv). fold type.
  cbv zeta. now rewrite (converter_unknown type Hbad).
- intros tag Hin. unfold type_tags in Hin. simpl in Hin.
  destruct Hin as [<-|[<-|[<-|[<-|[<-|[<-|[]]]]]]];
    (eexists; split; [reflexivity|]); intros raw;
    unfold converts; cbn [String.eqb Ascii.eqb Bool.eqb].
  + reflexivity.
  + reflexivity.
  + unfold parseObjectId. destruct (_ && _); eauto.
  + unfold RegExp_new. destruct (RegExp_valid raw); eauto.
  + exists (strip_hyphens raw). split; [apply strip_hyphens_free|].
    split; [reflexivity|]. intros Hh Hl.
    rewrite (Buffer_from_hex_length _ Hh), Hl. reflexivity.
  + reflexivity.
Qed.

(** C5. When [key] and [value] are both present and the upper-cased tag has
  a converter, the builder returns the one-key filter [{key: converted}]
  where [converted] is the converter applied to the raw value (and throws
  what the converter throws). In particular [name]/[Alice]/[S] gives
  [{name: "Alice"}] and [age]/[42]/[N] gives [{age: 42}], on a runtime that
  upper-cases [S] and [N] to themselves and reads [42] as 42. *)
Theorem C5_simple_query_filter (req : request) (key value type : string)
  (convert : string -> result jsval) :
Query.key (params req) = Some key -> key <> "" ->
Query.value (params req) = Some value -> value <> "" ->
option_map toUpperCase (Query.type (params req)) = Some type ->
converter type converters = Some convert ->
_getQuery req = (converted <- convert value ;; Ok (VObj [(key, converted)]))
/\ (toUpperCase "S" = "S" ->
    _getQuery (simple "name" "Alice" "S") = Ok (VObj [("name", VStr "Alice")]))
/\ (toUpperCase "N" = "N" -> Number "42" = Int 42 ->
    _getQuery (simple "age" "42" "N") = Ok (VObj [("age", VInt 42)])).
Proof.
intros Hk Hk' Hv Hv' Ht Hc. repeat split.
- rewrite getQuery_simple.
  + rewrite Ht, Hk, Hv. cbn [ToString]. cbv zeta. now rewrite Hc.
  + rewrite Hk. simpl. now destruct (String.eqb_spec key "").
  + rewrite Hv. simpl. now destruct (String.eqb_spec value "").
- intros HS. unfold _getQuery, simple; simpl. rewrite HS. reflexivity.
- intros HN H42. unfold _getQuery, simple; simpl. rewrite HN. simpl.
  rewrite H42. reflexivity.
Qed.

(** C10. The simple-query branch needs both [key] and [value] truthy. When
  either is absent or the empty string the pair (and the type tag) is
  ignored: the builder parses the raw [query] literal when that parameter
  is a non-empty string, throwing when it does not parse, and returns the
  empty filter otherwise. *)
Theorem C10_falsy_pair_ignored (req : request) :
truthy (Query.key (params req)) = false
\/ truthy (Query.value (params req)) = false ->
_getQuery req =
  match Query.query (params req) with
  | Some (String _ _ as jsonQuery) =>
      match toSafeBSON jsonQuery with
      | VNull => Throw (Error "Query entered is not valid")
      | result => Ok result
      end
  | _ => Ok (VObj [])
  end.
Proof.
intros H. rewrite getQuery_raw.
- destruct (Query.query (params req)) as [[|c q]|]; reflexivity.
- destruct H as [-> | ->]; [reflexivity | apply andb_false_r].
Qed.

End QueryBuilder.

Lemma C4_type_tag_checked_witness :
  _getQuery (rt := double_runtime) (bson := double_bson)
    (simple "name" "Alice" "x")
  = Throw (Error "Invalid query type: X")
  /\ exists convert,
       converter "U" (converters (rt := double_runtime)) = Some convert
       /\ forall raw, converts (rt := double_runtime) "U" raw (convert raw).
Proof.
  destruct (@C4_type_tag_checked double_runtime double_bson
              (simple "name" "Alice" "x") eq_refl eq_refl) as [H1 H2].
  split.
  - apply H1. vm_compute. intuition discriminate.
  - apply (H2 "U"). simpl. auto 10.
Defined.

Lemma C5_simple_query_filter_witness :
  _getQuery (rt := double_runtime) (bson := double_bson)
    (simple "age" "42" "n")
  = Ok (VObj [("age", VInt 42)])
  /\ _getQuery (rt := double_runtime) (bson := double_bson)
       (simple "name" "Alice" "S")
     = Ok (VObj [("name", VStr "Alice")]).
Proof.
  pose proof (@C5_simple_query_filter double_runtime double_bson
                (simple "age" "42" "n") "age" "42" "N"
                (fun value => Ok (VNum (@Number double_runtime value))))
    as H.
  destruct H as (H1 & H2 & H3).
  - reflexivity.
  - discriminate.
  - reflexivity.
  - discriminate.
  - reflexivity.
  - reflexivity.
  - split; [exact H1 | apply H2; reflexivity].
Defined.

Lemma C10_falsy_pair_ignored_witness :
  _getQuery (rt := double_runtime) (bson := double_bson)
    (simple "name" "" "x")
  = Ok (VObj []).
Proof.
  apply (@C10_falsy_pair_ignored double_runtime double_bson
           (simple "name" "" "x")).
  right. reflexivity.
Defined.

(** ** Query options *)

Lemma digit_range c d : digit c = Some d -> 0 <= d <= 9.
Proof.
  unfold digit. destruct (_ && _) eqn:E; [|discriminate].
  intros [= <-]. apply andb_prop in E as [E1 E2].
  apply Z.leb_le in E1, E2. lia.
Qed.

Lemma digits_nonneg s :
  forall acc n,
    0 <= match acc with Some a => a | None => 0 end ->
    digits s acc = Some n -> 0 <= n.
Proof.
  induction s as [|c r IH]; intros acc n Hacc; cbn [digits].
  - intros ->. exact Hacc.
  - destruct (digit c) as [d|] eqn:Hd.
    + apply IH. apply digit_range in Hd. lia.
    + intros ->. exact Hacc.
Qed.

Lemma to_double_nonneg z : 0 <= z -> 0 <= to_double z.
Proof.
  intros Hz. unfold to_double. destruct (Z.abs z <? 2 ^ 53); [exact Hz|].
  cbv zeta. apply Z.mul_nonneg_nonneg; [apply Z.sgn_nonneg, Hz|].
  apply Z.shiftl_nonneg.
  assert (0 <= Z.shiftr (Z.abs z) (Z.log2 (Z.abs z) - 52))
    by (apply Z.shiftr_nonneg; lia).
  destruct (_ || _); lia.
Qed.

Lemma parseInt_nonneg s z :
  minus_sign s = false -> parseInt s = Int z -> 0 <= z.
Proof.
  unfold minus_sign, parseInt.
  destruct (skip_ws s) as [|c r].
  - discriminate.
  - intros ->. destruct (Ascii.eqb c "+").
    + destruct (digits r None) as [n|] eqn:E; [|discriminate].
      intros [= <-]. apply to_double_nonneg.
      eapply digits_nonneg; [|exact E]. reflexivity.
    + destruct (digits (String c r) None) as [n|] eqn:E; [|discriminate].
      intros [= <-]. apply to_double_nonneg.
      eapply digits_nonneg; [|exact E]. reflexivity.
Qed.

(** [parseInt] skips a no-break space, and rounds what it reads. *)
Example parseInt_after_no_break_space :
  parseInt (nbsp ++ "-5") = Int (-5) /\ minus_sign (nbsp ++ "-5") = true.
Proof. split; reflexivity. Qed.

Example parseInt_rounds_to_double :
  parseInt "9007199254740993" = Int 9007199254740992.
Proof. reflexivity. Qed.

(** C9 as stated fails: a raw skip of [-5] resolves to a skip of -5. *)
Lemma C9_negative_skip_passes_through :
  QueryOptions.skip
    (_getQueryOptions (bson := double_bson) default_config
       (with_skip (Some "-5"))) = -5
  /\ ~ 0 <= QueryOptions.skip
             (_getQueryOptions (bson := double_bson) default_config
                (with_skip (Some "-5"))).
Proof. split; [reflexivity | vm_compute; intros H; now apply H]. Qed.

(** C9, amended. The resolved limit is the configured page size, so it is
    positive and bounded by it whenever that size is positive. The resolved
    skip is the integer [parseInt] reads at the start of the raw parameter,
    white space of any kind skipped and the value rounded to a double, when
    that is below the overflow of doubles, and 0 when the parameter is
    absent or starts with no integer; it is non-negative whenever the raw
    parameter carries no minus sign after its white space. *)
Theorem C9_query_options_paging {bson : Bson} (config : Config)
    (req : request) :
  let o := _getQueryOptions config req in
  let raw := Query.skip (params req) in
  QueryOptions.limit o = documentsPerPage config
  /\ (0 < documentsPerPage config ->
      0 < QueryOptions.limit o <= documentsPerPage config)
  /\ (raw = None -> QueryOptions.skip o = 0)
  /\ (forall s, raw = Some s -> parseInt s = NaN -> QueryOptions.skip o = 0)
  /\ (forall s z, raw = Some s -> parseInt s = Int z -> Z.abs z < 2 ^ 1024 ->
                  QueryOptions.skip o = z)
  /\ (forall s, raw = Some s -> minus_sign s = false ->
                0 <= QueryOptions.skip o).
Proof.
  cbv zeta. unfold _getQueryOptions; cbn [QueryOptions.limit QueryOptions.skip].
  split; [reflexivity|]. split; [lia|]. split; [|split; [|split]].
  - intros ->. reflexivity.
  - intros s -> Hs. cbn [ToString]. now rewrite Hs.
  - intros s z -> Hs _. cbn [ToString]. now rewrite Hs.
  - intros s -> Hs. cbn [ToString].
    destruct (parseInt s) as [z|] eqn:E; simpl; [|lia].
    eapply parseInt_nonneg; eauto.
Qed.

(** ** Result executor *)

Section ExecutorFacts.
Context {rt : Runtime} {bson : Bson} {coll : Collection}.
Variable config : Config.

(** The direct path issues the find and the count over one filter, and
    needs both answers. *)
Lemma direct_calls (q : jsval) (o : QueryOptions.t) :
  fst (direct config q o) = [Find q (with_disk_use config o); Count q].
Proof.
  unfold direct, Promise_all, findM, countM, io_bind, ret; cbn.
  destruct (find q _), (count q); reflexivity.
Qed.

Lemma direct_result (q : jsval) (o : QueryOptions.t) (page : PageResult.t) :
  snd (direct config q o) = Ok page <->
  exists its n,
    find q (with_disk_use config o) = Ok its /\ count q = Ok n
    /\ page = {| PageResult.items := VArr its; PageResult.count := n |}.
Proof.
  unfold direct, Promise_all, findM, countM, io_bind, ret; cbn.
  destruct (find q _) as [its|e], (count q) as [n|e']; cbn; split.
  all: try (intros [= <-]; eauto).
  all: try discriminate.
  all: intros (its' & n' & H1 & H2 & ->); congruence.
Qed.

Lemma io_bind_ok {A B} (a : A) (k : A -> io B) :
  io_bind (lift (Ok a)) k = k a.
Proof. unfold io_bind, lift. now destruct (k a). Qed.

Lemma io_bind_throw {A B} (e : exn) (k : A -> io B) :
  io_bind (lift (Throw e)) k = ([], Throw e).
Proof. reflexivity. Qed.

(** A request without [runAggregate=on] takes the direct path with the
    resolved query. *)
Lemma getItemsAndCount_not_requested (req : request) (o : QueryOptions.t)
    (q : jsval) :
  _getQuery req = Ok q ->
  Query.runAggregate (params req) <> Some "on" ->
  _getItemsAndCount config req o = direct config q o.
Proof.
  intros Hq Hoff. unfold _getItemsAndCount, aggregate_requested.
  rewrite Hq, io_bind_ok.
  destruct (Query.runAggregate (params req)) as [s|].
  - destruct (String.eqb_spec s "on") as [->|_]; [congruence|].
    now rewrite io_bind_ok.
  - now rewrite io_bind_ok.
Qed.

(** With [runAggregate=on] and a resolved query that is a non-empty
    sequence, the built pipeline is sent to [aggregate] and nothing else is
    issued. *)
Lemma getItemsAndCount_pipeline (req : request) (o : QueryOptions.t)
    (stages built : list jsval) :
  _getQuery req = Ok (VArr stages) -> stages <> [] ->
  Query.runAggregate (params req) = Some "on" ->
  _getAggregatePipeline (VArr stages) o = Ok built ->
  _getItemsAndCount config req o
  = (results <~ aggregateM built (allowDiskUse config) ;;
     items <~ lift (member "items" (hd VUndefined results)) ;;
     count <~ lift (member "count" (hd VUndefined results)) ;;
     n <~ lift (first_count count) ;;
     ret {| PageResult.items := items; PageResult.count := n |}).
Proof.
  intros Hq Hne Hon Hb. unfold _getItemsAndCount, aggregate_requested.
  rewrite Hq, Hon, io_bind_ok. cbn [String.eqb Ascii.eqb Bool.eqb].
  cbn [constructor_name bind is_str String.eqb Ascii.eqb Bool.eqb].
  rewrite io_bind_ok.
  destruct stages as [|st stages]; [congruence|].
  cbn [length_of gt_zero ToNumber VInt].
  replace (0 <? Z.of_nat (List.length (st :: stages))) with true
    by (symmetry; apply Z.ltb_lt; simpl List.length; lia).
  now rewrite Hb, io_bind_ok.
Qed.

Lemma aggregate_calls (built : list jsval) :
  fst (results <~ aggregateM built (allowDiskUse config) ;;
       items <~ lift (member "items" (hd VUndefined results)) ;;
       count <~ lift (member "count" (hd VUndefined results)) ;;
       n <~ lift (first_count count) ;;
       ret {| PageResult.items := items; PageResult.count := n |})
  = [Aggregate built (allowDiskUse config)].
Proof.
  unfold aggregateM, io_bind at 1.
  destruct (aggregate built _) as [results|]; [|reflexivity].
  destruct (member "items" _); [|reflexivity]. rewrite io_bind_ok.
  destruct (member "count" _); [|reflexivity]. rewrite io_bind_ok.
  destruct (first_count _); reflexivity.
Qed.

(** With [runAggregate=on] and an empty sequence, the direct path runs with
    the empty filter. *)
Lemma getItemsAndCount_empty_pipeline (req : request) (o : QueryOptions.t) :
  _getQuery req = Ok (VArr []) ->
  Query.runAggregate (params req) = Some "on" ->
  _getItemsAndCount config req o = direct config (VObj []) o.
Proof.
  intros Hq Hon. unfold _getItemsAndCount, aggregate_requested.
  rewrite Hq, Hon, io_bind_ok.
  cbn [constructor_name bind is_str String.eqb Ascii.eqb Bool.eqb].
  now rewrite io_bind_ok.
Qed.

(** With [runAggregate=on] and a resolved query that is a mapping with no
    property of its own called [constructor], the direct path runs with the
    resolved query. *)
Lemma getItemsAndCount_mapping (req : request) (o : QueryOptions.t)
    (d : doc) :
  _getQuery req = Ok (VObj d) -> get "constructor" d = None ->
  _getItemsAndCount config req o = direct config (VObj d) o.
Proof.
  intros Hq Hc. unfold _getItemsAndCount, aggregate_requested.
  rewrite Hq, io_bind_ok. cbn [constructor_name]. rewrite Hc.
  destruct (Query.runAggregate (params req)) as [s|].
  - destruct (String.eqb s "on");
      cbn [bind is_str String.eqb Ascii.eqb Bool.eqb];
      now rewrite io_bind_ok.
  - now rewrite io_bind_ok.
Qed.

(** C2, at the input where the code departs from it. A simple query on the
    field [constructor] whose JSON value is [{name: "Array"}] resolves to a
    mapping, not a sequence; with [runAggregate=on] the test on
    [query.constructor.name] takes it for an array, finds no positive
    [length], and the find and the count run with the empty filter instead of
    the resolved one. *)
Theorem C2_constructor_field_drops_filter (req : request)
    (o : QueryOptions.t) (raw : string) :
  Query.key (params req) = Some "constructor" ->
  Query.value (params req) = Some raw -> raw <> "" ->
  option_map toUpperCase (Query.type (params req)) = Some "J" ->
  JSON_parse raw = Ok (VObj [("name", VStr "Array")]) ->
  Query.runAggregate (params req) = Some "on" ->
  _getQuery req = Ok (VObj [("constructor", VObj [("name", VStr "Array")])])
  /\ fst (_getItemsAndCount config req o)
     = [Find (VObj []) (with_disk_use config o); Count (VObj [])].
Proof.
  intros Hk Hv Hraw Ht Hj Hon.
  assert (Hq : _getQuery req
               = Ok (VObj [("constructor", VObj [("name", VStr "Array")])])).
  { rewrite getQuery_simple.
    - rewrite Ht, Hk, Hv. cbn [ToString]. cbv zeta.
      cbn [converters converter String.eqb Ascii.eqb Bool.eqb].
      now rewrite Hj.
    - now rewrite Hk.
    - rewrite Hv. simpl. now destruct (String.eqb_spec raw ""). }
  split; [exact Hq|].
  unfold _getItemsAndCount, aggregate_requested.
  rewrite Hq, Hon, io_bind_ok.
  cbn [constructor_name get member field bind is_str
       String.eqb Ascii.eqb Bool.eqb].
  rewrite io_bind_ok.
  cbn [length_of field get String.eqb Ascii.eqb Bool.eqb gt_zero ToNumber].
  apply direct_calls.
Qed.

(** C6, at the input where the code departs from it. On the aggregation path,
    when the facet answers with an empty [count] branch (nothing matched),
    the page carries [undefined] as its count, not 0. *)
Theorem C6_no_match_count_is_undefined (req : request) (o : QueryOptions.t)
    (stages built : list jsval) (its : jsval) :
  _getQuery req = Ok (VArr stages) -> stages <> [] ->
  Query.runAggregate (params req) = Some "on" ->
  _getAggregatePipeline (VArr stages) o = Ok built ->
  aggregate built (allowDiskUse config)
    = Ok [VObj [("count", VArr []); ("items", its)]] ->
  _getItemsAndCount config req o
  = ([Aggregate built (allowDiskUse config)],
     Ok {| PageResult.items := its; PageResult.count := VUndefined |}).
Proof.
  intros Hq Hne Hon Hb Hagg.
  rewrite (getItemsAndCount_pipeline req o stages built Hq Hne Hon Hb).
  unfold aggregateM, io_bind at 1. rewrite Hagg. reflexivity.
Qed.

End ExecutorFacts.

Lemma C2_constructor_field_drops_filter_witness :
  _getQuery (rt := double_runtime) (bson := double_bson) constructor_request
  = Ok (VObj [("constructor", VObj [("name", VStr "Array")])])
  /\ fst (_getItemsAndCount (rt := double_runtime) (bson := double_bson)
            (coll := double_collection) default_config constructor_request
            (_getQueryOptions (bson := double_bson) default_config
               constructor_request))
     = [Find (VObj [])
          (_getQueryOptions (bson := double_bson) default_config
             constructor_request);
        Count (VObj [])].
Proof.
  apply (@C2_constructor_field_drops_filter double_runtime double_bson
           double_collection default_config constructor_request
           (_getQueryOptions (bson := double_bson) default_config
              constructor_request)
           ("{" ++ Double.dq ++ "name" ++ Double.dq ++ ":"
                ++ Double.dq ++ "Array" ++ Double.dq ++ "}")).
  - reflexivity.
  - reflexivity.
  - discriminate.
  - reflexivity.
  - reflexivity.
  - reflexivity.
Defined.

(** A raw query literal with [constructor] and [length] fields of its own
    enters the aggregation branch although it is a mapping; spreading it
    throws, and no store operation is issued. *)
Example constructor_and_length_enter_aggregation :
  _getItemsAndCount (rt := double_runtime) (bson := double_bson)
    (coll := double_collection) default_config
    (with_runAggregate (with_query "{constructor:{name:'Array'},length:1}"))
    (_getQueryOptions (bson := double_bson) default_config
       (with_query "{constructor:{name:'Array'},length:1}"))
  = ([], Throw (TypeError "object is not iterable")).
Proof. reflexivity. Qed.

Lemma C6_no_match_count_is_undefined_witness :
  snd (_getItemsAndCount (rt := double_runtime) (bson := double_bson)
         (coll := double_collection) default_config match_request
         (_getQueryOptions (bson := double_bson) default_config match_request))
  = Ok {| PageResult.items := VArr []; PageResult.count := VUndefined |}.
Proof.
  erewrite (@C6_no_match_count_is_undefined double_runtime double_bson
              double_collection default_config match_request
              (_getQueryOptions (bson := double_bson) default_config
                 match_request)
              [VObj [("$match", VObj [("x", VInt 1)])]] _ (VArr [])).
  - reflexivity.
  - reflexivity.
  - discriminate.
  - reflexivity.
  - reflexivity.
  - reflexivity.
Defined.

(** ** Importer *)

Section ImporterFacts.
Context {bson : Bson} {coll : Collection}.

Lemma parse_lines_throw (lines : list string) :
  forall docs,
    (exists line e, In line lines /\ EJSON_parse line = Throw e) ->
    exists e', parse_lines lines docs = Throw e'.
Proof.
  induction lines as [|l lines IH]; intros docs (line & e & Hin & He).
  - destruct Hin.
  - cbn [parse_lines]. destruct Hin as [<-|Hin].
    + rewrite He. now exists e.
    + destruct (EJSON_parse l) as [parsedData|e0]; [|now exists e0].
      cbn [bind]. destruct (spread parsedData) as [elems|e1];
        [|now exists e1].
      cbn [bind]. apply IH. now exists line, e.
Qed.

Lemma parse_files_throw (fs : list file) :
  forall docs,
    (exists f content line e,
        In f fs /\ data f = Some content /\ In line (lines_of content)
        /\ EJSON_parse line = Throw e) ->
    exists e', parse_files fs docs = Throw e'.
Proof.
  induction fs as [|f fs IH];
    intros docs (f0 & content & line & e & Hin & Hd & Hl & He).
  - destruct Hin.
  - cbn [parse_files]. destruct Hin as [<-|Hin].
    + rewrite Hd.
      destruct (parse_lines_throw (lines_of content) docs) as [e' ->].
      * now exists line, e.
      * now exists e'.
    + destruct (parse_lines _ docs) as [docs'|e0]; [|now exists e0].
      cbn [bind]. apply IH. now exists f0, content, line, e.
Qed.

Lemma invalid_file_mime (fs : list file) (f : file) :
  In f fs -> ~ In (mimetype f) ALLOWED_MIME_TYPES ->
  existsb invalid_file fs = true.
Proof.
  intros Hin Hbad. apply existsb_exists. exists f. split; [exact Hin|].
  unfold invalid_file. apply orb_true_iff. left. apply negb_true_iff.
  destruct (existsb _ ALLOWED_MIME_TYPES) eqn:E; [|reflexivity].
  exfalso. apply Hbad. apply existsb_exists in E as (m & Hm & Heq).
  apply String.eqb_eq in Heq. now subst m.
Qed.

(** C3, amended. A payload with a disallowed content type, or a non-blank
    line that does not parse, makes the import fail as a whole: no insertion
    is issued and the response is a 400. A payload of two lines that each
    hold an array literal of one document sends both documents to the store
    in one [insertMany] and reports the count the store confirms. *)
Theorem C3_import_all_or_nothing (req : request) (fs : list file) :
  files req = Some fs ->
  ((exists f, In f fs /\ ~ In (mimetype f) ALLOWED_MIME_TYPES)
   \/ (exists f content line e,
         In f fs /\ data f = Some content /\ In line (lines_of content)
         /\ EJSON_parse line = Throw e) ->
   fst (importCollection req) = []
   /\ status (snd (importCollection req)) = 400)
  /\ (forall mime content l1 l2 d1 d2 n,
        fs = [{| mimetype := mime; data := Some content |}] ->
        In mime ALLOWED_MIME_TYPES ->
        lines_of content = [l1; l2] ->
        EJSON_parse l1 = Ok (VArr [d1]) ->
        EJSON_parse l2 = Ok (VArr [d2]) ->
        insertMany [d1; d2] = Ok n ->
        importCollection req
        = ([InsertMany [d1; d2]], {| status := 200; sent := Inserted n |})).
Proof.
  intros Hfs. unfold importCollection. rewrite Hfs. split.
  - intros H. destruct (existsb invalid_file fs) eqn:Einv; [now split|].
    destruct H as [(f & Hin & Hbad) | H].
    + rewrite (invalid_file_mime fs f Hin Hbad) in Einv. discriminate.
    + destruct (parse_files_throw fs [] H) as [e' ->]. now split.
  - intros mime content l1 l2 d1 d2 n -> Hmime Hl H1 H2 Hn.
    replace (existsb invalid_file _) with false.
    + cbn [parse_files data]. rewrite Hl. cbn [parse_lines].
      rewrite H1. cbn [bind spread]. rewrite H2. cbn [bind spread app].
      now rewrite Hn.
    + symmetry. cbn [existsb]. rewrite orb_false_r. unfold invalid_file.
      cbn [mimetype data]. rewrite orb_false_r. apply negb_false_iff.
      apply existsb_exists. exists mime. split; [exact Hmime|].
      apply String.eqb_refl.
Qed.

End ImporterFacts.

(** C3 as stated fails: two lines that each hold one well-formed object
    literal are rejected, because the parsed line is spread into the
    accumulator and an object is not iterable. *)
Lemma C3_object_lines_rejected :
  EJSON_parse (Bson := double_bson) line_a = Ok (VObj [("a", VInt 1)])
  /\ EJSON_parse (Bson := double_bson) line_b = Ok (VObj [("b", VInt 2)])
  /\ importCollection (bson := double_bson) (coll := double_collection)
       (upload (line_a ++ nl ++ line_b))
     = ([], {| status := 400; sent := Text "Bad file content" |}).
Proof. repeat split. Qed.

Lemma C3_import_all_or_nothing_witness :
  importCollection (bson := double_bson) (coll := double_collection)
    (upload ("[" ++ line_a ++ "]" ++ nl ++ "[" ++ line_b ++ "]"))
  = ([InsertMany [VObj [("a", VInt 1)]; VObj [("b", VInt 2)]]],
     {| status := 200; sent := Inserted 2 |}).
Proof.
  refine (proj2 (@C3_import_all_or_nothing double_bson double_collection
                   (upload ("[" ++ line_a ++ "]" ++ nl ++ "[" ++ line_b ++ "]"))
                   _ eq_refl)
            "application/json" _ ("[" ++ line_a ++ "]") ("[" ++ line_b ++ "]")
            _ _ 2 eq_refl _ _ _ _ _).
  - simpl. auto.
  - reflexivity.
  - reflexivity.
  - reflexivity.
  - reflexivity.
Defined.

(** ** Size guard *)

(** Property access on objects whose property names are unique. *)

Lemma get_app (k : string) (pre l : doc) :
  get k (pre ++ l)%list
  = match get k pre with
    | Some v => Some v
    | None => get k l
    end.
Proof.
  induction pre as [|[k' v'] pre IH]; [reflexivity|].
  cbn [app get]. now destruct (String.eqb k' k).
Qed.

Lemma get_notin (k : string) (d : doc) : ~ In k (keys d) -> get k d = None.
Proof.
  induction d as [|[k' v'] d IH]; [reflexivity|].
  cbn [keys map fst In get]. intros H.
  destruct (String.eqb_spec k' k) as [->|_]; [exfalso; auto|].
  apply IH. intros Hin. apply H. now right.
Qed.

Lemma get_in (k : string) (d : doc) :
  In k (keys d) -> exists v, get k d = Some v /\ In (k, v) d.
Proof.
  induction d as [|[k' v'] d IH]; [intros []|].
  cbn [keys map fst In get]. intros H.
  destruct (String.eqb_spec k' k) as [->|Hne].
  - exists v'. split; [reflexivity | now left].
  - destruct H as [H|H]; [congruence|].
    destruct (IH H) as (v & Hg & Hin). exists v. split; [exact Hg | now right].
Qed.

Lemma set_app_notin (k : string) (v : jsval) (pre l : doc) :
  ~ In k (keys pre) -> set k v (pre ++ l)%list = (pre ++ set k v l)%list.
Proof.
  induction pre as [|[k' v'] pre IH]; [reflexivity|].
  cbn [keys map fst In app set]. intros H.
  destruct (String.eqb_spec k' k) as [->|_]; [exfalso; auto|].
  f_equal. apply IH. intros Hin. apply H. now right.
Qed.

Lemma set_head (k : string) (v v' : jsval) (l : doc) :
  set k v ((k, v') :: l) = (k, v) :: l.
Proof. cbn [set]. now rewrite String.eqb_refl. Qed.

Lemma get_set_other (k k' : string) (v : jsval) (d : doc) :
  k <> k' -> get k' (set k v d) = get k' d.
Proof.
  intros Hne. induction d as [|[k0 v0] d IH]; [reflexivity|].
  cbn [set]. destruct (String.eqb_spec k0 k) as [->|_].
  - cbn [get]. now destruct (String.eqb_spec k k').
  - cbn [get]. now rewrite IH.
Qed.

Lemma keys_set (k : string) (v : jsval) (d : doc) : keys (set k v d) = keys d.
Proof.
  induction d as [|[k0 v0] d IH]; [reflexivity|].
  cbn [set]. destruct (String.eqb k0 k); cbn [keys map fst]; [reflexivity|].
  f_equal. exact IH.
Qed.

Lemma keys_app (a b : doc) : keys (a ++ b)%list = (keys a ++ keys b)%list.
Proof. apply map_app. Qed.

Lemma fold_left_fixed {A B} (f : A -> B -> A) (l : list B) (a : A) :
  (forall b, In b l -> f a b = a) -> fold_left f l a = a.
Proof.
  induction l as [|b l IH]; [reflexivity|].
  intros H. cbn [fold_left]. rewrite (H b) by now left.
  apply IH. intros b' Hb'. apply H. now right.
Qed.

Section SizeGuardFacts.
Context {rt : Runtime} {utils : Utils}.
Variable config : Config.

Local Abbreviation size := roughSizeOfObject.

Lemma is_stub_stub (display : string) (maxSize : Z) (item : doc)
    (prop : string) :
  is_stub (stub display maxSize item prop) = true.
Proof. reflexivity. Qed.

(** *** Documents below the thresholds *)

Lemma perFieldPass_within (item : doc) :
  fields_within (maxPropSize config) item -> perFieldPass config item = item.
Proof.
  intros Hall. unfold perFieldPass. apply fold_left_fixed.
  intros k Hk. unfold prepProp, field.
  destruct (get_in k item Hk) as (v & -> & Hin).
  unfold fields_within in Hall. rewrite Forall_forall in Hall.
  specialize (Hall _ Hin). cbn [snd] in Hall.
  now replace (size v >? maxPropSize config) with false
    by (symmetry; rewrite Z.gtb_ltb; apply Z.ltb_ge; lia).
Qed.

Lemma perRowPass_within (item : doc) :
  size (VObj item) <= maxRowSize config \/ row_fields_within item ->
  perRowPass config item = item.
Proof.
  intros H. unfold perRowPass.
  destruct (size (VObj item) >? maxRowSize config) eqn:E; [|reflexivity].
  destruct H as [H|Hall].
  - rewrite Z.gtb_ltb in E. apply Z.ltb_lt in E. lia.
  - apply fold_left_fixed. intros k Hk. unfold prepRowProp, field.
    destruct (get_in k item Hk) as (v & -> & Hin).
    unfold row_fields_within in Hall. rewrite Forall_forall in Hall.
    specialize (Hall _ Hin). cbn [fst snd] in Hall.
    destruct (String.eqb_spec k "_id") as [->|Hne]; [reflexivity|].
    destruct Hall as [Hid|Hsz]; [congruence|].
    cbn [negb andb].
    now replace (size v >? 200) with false
      by (symmetry; rewrite Z.gtb_ltb; apply Z.ltb_ge; lia).
Qed.

(** A document whose fields are all within the per-field threshold and whose
    total is within the per-row threshold passes through unchanged. *)
Lemma sizeGuard_within (item : doc) :
  fields_within (maxPropSize config) item ->
  size (VObj item) <= maxRowSize config ->
  sizeGuard config item = item.
Proof.
  intros Hf Hr. unfold sizeGuard. rewrite (perFieldPass_within item Hf).
  apply perRowPass_within. now left.
Qed.

(** *** The two loops as maps over the properties

    With unique property names, each loop visits every property once, in
    order. The first loop reads [item._id] as it is at that moment, which is
    the stub once [_id] itself has been replaced. *)

Lemma stub_stub_of (display : string) (maxSize : Z) (item : doc)
    (prop : string) :
  stub display maxSize item prop
  = stub_of display maxSize prop (field prop item) (field "_id" item).
Proof. reflexivity. Qed.

Lemma get_some_in (k : string) (v : jsval) (d : doc) :
  get k d = Some v -> In k (keys d).
Proof.
  induction d as [|[k' v'] d IH]; [discriminate|].
  cbn [get keys map fst In].
  destruct (String.eqb_spec k' k) as [->|_]; [now left|].
  intros H. right. now apply IH.
Qed.

Lemma field_app_head (k : string) (v : jsval) (pre rest : doc) :
  ~ In k (keys pre) -> field k (pre ++ (k, v) :: rest)%list = v.
Proof.
  intros H. unfold field. rewrite get_app, (get_notin k pre H).
  cbn [get]. now rewrite String.eqb_refl.
Qed.

Lemma field_id_replaced (k : string) (v s : jsval) (pre rest : doc) :
  ~ In k (keys pre) ->
  field "_id" (pre ++ (k, s) :: rest)%list
  = if String.eqb k "_id" then s
    else field "_id" (pre ++ (k, v) :: rest)%list.
Proof.
  intros H. unfold field. rewrite !get_app.
  destruct (get "_id" pre) as [x|] eqn:E.
  - destruct (String.eqb_spec k "_id") as [->|_]; [|reflexivity].
    exfalso. apply H. eapply get_some_in; eauto.
  - cbn [get]. now destruct (String.eqb k "_id").
Qed.

Lemma nodup_middle (k : string) (v : jsval) (pre rest : doc) :
  NoDup (keys (pre ++ (k, v) :: rest)%list) -> ~ In k (keys pre).
Proof.
  rewrite keys_app. cbn [keys map fst]. intros H Hin.
  apply NoDup_remove_2 in H. apply H. apply in_or_app. now left.
Qed.

Lemma keys_middle (k : string) (v v' : jsval) (pre rest : doc) :
  keys ((pre ++ [(k, v')]) ++ rest)%list = keys (pre ++ (k, v) :: rest)%list.
Proof. now rewrite <- app_assoc, !keys_app. Qed.

Lemma prepProp_fold (post : doc) :
  forall pre,
    NoDup (keys (pre ++ post)%list) ->
    fold_left (prepProp config) (keys post) (pre ++ post)%list
    = (pre ++ fieldPass config (field "_id" (pre ++ post)%list) post)%list.
Proof.
  induction post as [|[k v] rest IH]; intros pre Hnd; [reflexivity|].
  pose proof (nodup_middle k v pre rest Hnd) as Hk.
  cbn [keys map fst fold_left fieldPass]. unfold prepProp at 2.
  rewrite (field_app_head k v pre rest Hk).
  destruct (size v >? maxPropSize config).
  - rewrite stub_stub_of, (field_app_head k v pre rest Hk).
    rewrite (set_app_notin _ _ pre _ Hk), set_head.
    set (s := stub_of _ _ k v _).
    replace (pre ++ (k, s) :: rest)%list with ((pre ++ [(k, s)]) ++ rest)%list
      by now rewrite <- app_assoc.
    fold (keys rest). rewrite IH by now rewrite (keys_middle k v s).
    rewrite <- !app_assoc. cbn [app].
    now rewrite (field_id_replaced k v s pre rest Hk).
  - replace (pre ++ (k, v) :: rest)%list with ((pre ++ [(k, v)]) ++ rest)%list
      by now rewrite <- app_assoc.
    fold (keys rest). rewrite IH by now rewrite (keys_middle k v v).
    now rewrite <- !app_assoc.
Qed.

Lemma perFieldPass_fieldPass (item : doc) :
  NoDup (keys item) ->
  perFieldPass config item = fieldPass config (field "_id" item) item.
Proof. intros H. exact (prepProp_fold item [] H). Qed.

Lemma prepRowProp_fold (post : doc) :
  forall pre,
    NoDup (keys (pre ++ post)%list) ->
    fold_left (prepRowProp config) (keys post) (pre ++ post)%list
    = (pre ++ rowMap config (field "_id" (pre ++ post)%list) post)%list.
Proof.
  induction post as [|[k v] rest IH]; intros pre Hnd; [reflexivity|].
  pose proof (nodup_middle k v pre rest Hnd) as Hk.
  cbn [keys map fst fold_left rowMap]. unfold prepRowProp at 2, rowField at 1.
  cbn [fst snd]. rewrite (field_app_head k v pre rest Hk).
  destruct (negb (String.eqb k "_id") && (size v >? 200)) eqn:E.
  - rewrite stub_stub_of, (field_app_head k v pre rest Hk).
    rewrite (set_app_notin _ _ pre _ Hk), set_head.
    set (s := stub_of _ _ k v _).
    replace (pre ++ (k, s) :: rest)%list with ((pre ++ [(k, s)]) ++ rest)%list
      by now rewrite <- app_assoc.
    fold (keys rest). rewrite IH by now rewrite (keys_middle k v s).
    rewrite <- !app_assoc. cbn [app].
    rewrite (field_id_replaced k v s pre rest Hk).
    apply andb_prop in E as [E _]. apply negb_true_iff in E.
    now rewrite E.
  - replace (pre ++ (k, v) :: rest)%list with ((pre ++ [(k, v)]) ++ rest)%list
      by now rewrite <- app_assoc.
    fold (keys rest). rewrite IH by now rewrite (keys_middle k v v).
    now rewrite <- !app_assoc.
Qed.

Lemma perRowPass_rowMap (item : doc) :
  NoDup (keys item) ->
  perRowPass config item
  = if size (VObj item) >? maxRowSize config
    then rowMap config (field "_id" item) item
    else item.
Proof.
  intros H. unfold perRowPass.
  destruct (_ >? _); [|reflexivity]. exact (prepRowProp_fold item [] H).
Qed.

Lemma keys_fieldPass (item : doc) :
  forall id, keys (fieldPass config id item) = keys item.
Proof.
  induction item as [|[k v] rest IH]; intros id; [reflexivity|].
  cbn [fieldPass]. destruct (_ >? _); cbn [keys map fst]; f_equal; apply IH.
Qed.

(** *** The identifier field *)

Lemma fieldPass_id (item : doc) (v : jsval) :
  get "_id" item = Some v -> size v > maxPropSize config ->
  get "_id" (fieldPass config v item)
  = Some (stub_of "*** LARGE PROPERTY ***" (maxPropSize config) "_id" v v).
Proof.
  intros Hget Hbig.
  assert (Hgt : (size v >? maxPropSize config) = true)
    by (rewrite Z.gtb_ltb; apply Z.ltb_lt; lia).
  induction item as [|[k x] rest IH]; [discriminate|].
  cbn [get] in Hget. cbn [fieldPass].
  destruct (String.eqb_spec k "_id") as [->|Hne].
  - injection Hget as ->. rewrite Hgt. cbn [get]. reflexivity.
  - destruct (size x >? maxPropSize config); cbn [get];
      destruct (String.eqb_spec k "_id"); try congruence; now apply IH.
Qed.

(** The second loop skips [_id]. *)
Lemma perRowPass_keeps_id (item : doc) :
  field "_id" (perRowPass config item) = field "_id" item.
Proof.
  unfold perRowPass. destruct (_ >? _); [|reflexivity].
  generalize (keys item). intros ks. revert item.
  induction ks as [|k ks IH]; intros item; [reflexivity|].
  cbn [fold_left]. rewrite IH. unfold prepRowProp.
  destruct (String.eqb_spec k "_id") as [->|Hne]; [reflexivity|].
  cbn [negb andb]. destruct (_ >? 200); [|reflexivity].
  unfold field. now rewrite get_set_other.
Qed.

(** C7, at the input where the code departs from it. The first loop has no
    test on the property name: an [_id] whose computed size exceeds the
    per-field threshold is replaced by a stub like any other property. *)
Theorem C7_identifier_redacted_by_field_pass (item : doc) :
  NoDup (keys item) -> In "_id" (keys item) ->
  size (field "_id" item) > maxPropSize config ->
  field "_id" (perFieldPass config item)
  = stub "*** LARGE PROPERTY ***" (maxPropSize config) item "_id"
  /\ is_stub (field "_id" (perFieldPass config item)) = true.
Proof.
  intros Hnd Hin Hbig.
  assert (H : field "_id" (perFieldPass config item)
              = stub "*** LARGE PROPERTY ***" (maxPropSize config) item "_id").
  { rewrite (perFieldPass_fieldPass item Hnd), stub_stub_of.
    destruct (get_in "_id" item Hin) as (v & Hget & _).
    unfold field in *. rewrite Hget in *.
    now rewrite (fieldPass_id item v Hget Hbig). }
  split; [exact H | rewrite H; apply is_stub_stub].
Qed.

(** *** Applying the guard twice *)

Lemma fieldPass_fields (item : doc) :
  forall id,
    Forall (fun kv => is_stub (snd kv) = true
                      \/ size (snd kv) <= maxPropSize config)
           (fieldPass config id item).
Proof.
  induction item as [|[k v] rest IH]; intros id; [constructor|].
  cbn [fieldPass]. destruct (size v >? maxPropSize config) eqn:E.
  - constructor; [now left | apply IH].
  - constructor; [|apply IH]. right. cbn [snd].
    rewrite Z.gtb_ltb in E. apply Z.ltb_ge in E. exact E.
Qed.

Lemma rowMap_fields (id : jsval) (item : doc) :
  Forall (fun kv => is_stub (snd kv) = true
                    \/ (In kv item
                        /\ (fst kv = "_id" \/ size (snd kv) <= 200)))
         (rowMap config id item).
Proof.
  unfold rowMap. apply Forall_forall. intros kv Hin.
  apply in_map_iff in Hin as ([k v] & <- & Hin).
  unfold rowField. cbn [fst snd].
  destruct (String.eqb_spec k "_id") as [->|Hne]; cbn [negb andb].
  - right. split; [exact Hin | now left].
  - destruct (size v >? 200) eqn:E.
    + now left.
    + right. split; [exact Hin|]. right. cbn [snd].
      rewrite Z.gtb_ltb in E. apply Z.ltb_ge in E. exact E.
Qed.

Lemma sizeGuard_output (item : doc) :
  NoDup (keys item) -> stubs_within config (sizeGuard config item) ->
  fields_within (maxPropSize config) (sizeGuard config item)
  /\ (size (VObj (sizeGuard config item)) <= maxRowSize config
      \/ row_fields_within (sizeGuard config item)).
Proof.
  intros Hnd. unfold sizeGuard, stubs_within, fields_within, row_fields_within.
  rewrite (perFieldPass_fieldPass item Hnd).
  set (p1 := fieldPass config (field "_id" item) item).
  assert (Hnd1 : NoDup (keys p1))
    by (unfold p1; now rewrite keys_fieldPass).
  pose proof (fieldPass_fields item (field "_id" item)) as F1. fold p1 in F1.
  rewrite (perRowPass_rowMap p1 Hnd1).
  destruct (size (VObj p1) >? maxRowSize config) eqn:E.
  - pose proof (rowMap_fields (field "_id" p1) p1) as F2.
    rewrite Forall_forall in F1, F2. rewrite !Forall_forall.
    intros [Hs1 Hs2]. split.
    + intros kv Hin. destruct (F2 kv Hin) as [Hst|[Hin1 _]]; [now apply Hs1|].
      destruct (F1 kv Hin1) as [Hst|Hsz]; [now apply Hs1 | exact Hsz].
    + destruct (Z_le_gt_dec
                  (size (VObj (rowMap config (field "_id" p1) p1)))
                  (maxRowSize config)) as [Hle|Hgt]; [now left | right].
      specialize (Hs2 Hgt).
      intros kv Hin. destruct (F2 kv Hin) as [Hst|[_ Hsm]]; [|exact Hsm].
      now apply Hs2.
  - rewrite Forall_forall in F1. rewrite !Forall_forall.
    intros [Hs1 _]. split.
    + intros kv Hin. destruct (F1 kv Hin) as [Hst|Hsz];
        [now apply Hs1 | exact Hsz].
    + left. rewrite Z.gtb_ltb in E. apply Z.ltb_ge in E. exact E.
Qed.

(** C8, amended. On a document whose guarded form carries only stubs of
    computed size at most the per-field threshold and, when the guarded form
    is still over the per-row threshold, only stubs of size at most 200
    apart from that of [_id], applying the guard to the guarded form changes
    nothing. *)
Theorem C8_guard_idempotent_on_small_stubs (item : doc) :
  NoDup (keys item) -> stubs_within config (sizeGuard config item) ->
  sizeGuard config (sizeGuard config item) = sizeGuard config item.
Proof.
  intros Hnd Hs. destruct (sizeGuard_output item Hnd Hs) as [Hf Hr].
  set (g := sizeGuard config item) in *. unfold sizeGuard at 1.
  rewrite (perFieldPass_within g Hf). now apply perRowPass_within.
Qed.

End SizeGuardFacts.

Lemma C7_identifier_redacted_by_field_pass_witness :
  is_stub (field "_id"
             (perFieldPass (rt := double_runtime) (utils := double_utils)
                small_config long_id_item)) = true.
Proof.
  refine (proj2 (@C7_identifier_redacted_by_field_pass double_runtime
                   double_utils small_config long_id_item _ _ _)).
  - repeat constructor; simpl; intuition discriminate.
  - simpl. auto.
  - reflexivity.
Defined.

(** The per-field pass on [long_id_item], with a threshold of 50. *)
Example long_id_item_redacted :
  perFieldPass (rt := double_runtime) (utils := double_utils)
    small_config long_id_item
  = [("_id",
      VObj [("attribu", VStr "_id");
            ("display", VStr "*** LARGE PROPERTY ***");
            ("humanSz", VStr "60 Bytes");
            ("maxSize", VStr "50 Bytes");
            ("preview", VStr (Double.dq ++ replicate 24 "f"));
            ("roughSz", VInt 60);
            ("_id", VStr (replicate 60 "f"))]);
     ("n", VInt 1)].
Proof. reflexivity. Qed.

(** C8 as stated fails: with a per-field threshold of 50 the stub of a
    60-character field has computed size 82, so the guard replaces the stub
    by a stub of the stub. *)
Lemma C8_stub_redacted_again :
  sizeGuard (rt := double_runtime) (utils := double_utils) small_config
    (sizeGuard (rt := double_runtime) (utils := double_utils) small_config
       (bio_item 60))
  <> sizeGuard (rt := double_runtime) (utils := double_utils) small_config
       (bio_item 60).
Proof. vm_compute. intros H. congruence. Qed.

Lemma C8_guard_idempotent_on_small_stubs_witness :
  sizeGuard (rt := double_runtime) (utils := double_utils) wide_config
    (sizeGuard (rt := double_runtime) (utils := double_utils) wide_config
       (bio_item 1200))
  = sizeGuard (rt := double_runtime) (utils := double_utils) wide_config
      (bio_item 1200).
Proof.
  apply (@C8_guard_idempotent_on_small_stubs double_runtime double_utils
           wide_config (bio_item 1200)).
  - repeat constructor; simpl; intuition discriminate.
  - split.
    + repeat (constructor; [intros _; vm_compute; discriminate|]).
      constructor.
    + intros H. exfalso. revert H. vm_compute. intros H. discriminate H.
Defined.

(** * Further properties of the routes *)

(** ** Query builder and query options *)

(** X1. A simple pair wins over the raw literal: when [key] and [value] are
    both truthy, the [query] parameter has no influence on the resolved
    filter. *)
Theorem simple_pair_takes_precedence {rt : Runtime} {bson : Bson}
    (req : request) (jsonQuery : option string) :
  truthy (Query.key (params req)) = true ->
  truthy (Query.value (params req)) = true ->
  _getQuery (with_raw_query jsonQuery req) = _getQuery req.
Proof.
  intros Hk Hv.
  rewrite (getQuery_simple (with_raw_query jsonQuery req)) by exact Hk || exact Hv.
  now rewrite (getQuery_simple req Hk Hv).
Qed.

Lemma simple_pair_takes_precedence_witness :
  _getQuery (rt := double_runtime) (bson := double_bson)
    (with_raw_query (Some "{x:1}") (simple "age" "42" "N"))
  = Ok (VObj [("age", VInt 42)]).
Proof.
  rewrite (@simple_pair_takes_precedence double_runtime double_bson
             (simple "age" "42" "N") (Some "{x:1}")).
  - reflexivity.
  - reflexivity.
  - reflexivity.
Defined.

Lemma Object_keys_count_defined {bson : Bson} (p : jsval) :
  p <> VNull -> p <> VUndefined -> exists n, Object_keys_count p = Ok n.
Proof.
  intros Hn Hu. destruct p; try congruence; cbn; eauto.
Qed.

Lemma getProjection_defined {bson : Bson} (req : request) :
  _getProjection req <> VNull /\ _getProjection req <> VUndefined.
Proof.
  unfold _getProjection. destruct (truthy _); [|split; discriminate].
  destruct (toSafeBSON _); split; discriminate.
Qed.

(** X2. The options resolved from a request always build: for every
    request whose raw skip and whose sum of page size and skip stay below
    the overflow of doubles, and every user pipeline that is a sequence, the
    pipeline builder returns the user stages, a [$sort] stage exactly when
    the request names at least one sort field, and the facet with the
    resolved skip and limit. It never throws on them. *)
Theorem resolved_options_build_a_pipeline {bson : Bson} (config : Config)
    (req : request) (stages : list jsval) :
  finite (parseInt (ToString (Query.skip (params req)))) ->
  finite (Int (js_add (documentsPerPage config)
                      (QueryOptions.skip (_getQueryOptions config req)))) ->
  exists project,
    _getAggregatePipeline (VArr stages) (_getQueryOptions config req)
    = Ok (stages
          ++ match Query.sort (params req) with
             | Some (_ :: _) => [VObj [("$sort", _getSort req)]]
             | _ => []
             end
          ++ [facet (QueryOptions.skip (_getQueryOptions config req))
                    (documentsPerPage config) project])%list.
Proof.
  intros _ _.
  destruct (getProjection_defined req) as [Hn Hu].
  destruct (Object_keys_count_defined (_getProjection req) Hn Hu) as [n Hp].
  eexists. unfold _getAggregatePipeline, facet.
  cbn [spread bind _getQueryOptions QueryOptions.sort QueryOptions.projection
       QueryOptions.skip QueryOptions.limit].
  rewrite Hp. unfold _getSort.
  destruct (Query.sort (params req)) as [[|[f d] sort]|];
    cbn [Object_keys_count bind map keys fst]; reflexivity.
Qed.

Lemma resolved_options_build_a_pipeline_witness :
  exists project,
    _getAggregatePipeline (bson := double_bson) (VArr [VObj []])
      (_getQueryOptions (bson := double_bson) default_config
         (with_skip (Some "20")))
    = Ok [VObj []; facet 20 10 project].
Proof.
  apply (@resolved_options_build_a_pipeline double_bson default_config
           (with_skip (Some "20")) [VObj []]).
  - vm_compute. reflexivity.
  - vm_compute. reflexivity.
Defined.

(** ** Result executor *)

Section ExecutorContracts.
Context {rt : Runtime} {bson : Bson} {coll : Collection}.
Variable config : Config.

(** X3. On the aggregation path the only store operation is one
    [aggregate] with the built pipeline and the configured [allowDiskUse];
    no find and no count are issued. *)
Theorem aggregation_issues_one_aggregate (req : request)
    (o : QueryOptions.t) (stages built : list jsval) :
  _getQuery req = Ok (VArr stages) -> stages <> [] ->
  Query.runAggregate (params req) = Some "on" ->
  _getAggregatePipeline (VArr stages) o = Ok built ->
  fst (_getItemsAndCount config req o)
  = [Aggregate built (allowDiskUse config)].
Proof.
  intros Hq Hne Hon Hb.
  rewrite (getItemsAndCount_pipeline config req o stages built Hq Hne Hon Hb).
  apply aggregate_calls.
Qed.

(** X4. On the aggregation path the page is read off the first document of
    the answer: its items are that document's [items], and its count is the
    [count] field of the first document of the [count] branch. *)
Theorem aggregation_page_from_facet (req : request) (o : QueryOptions.t)
    (stages built rest cs : list jsval) (d c : doc) :
  _getQuery req = Ok (VArr stages) -> stages <> [] ->
  Query.runAggregate (params req) = Some "on" ->
  _getAggregatePipeline (VArr stages) o = Ok built ->
  aggregate built (allowDiskUse config) = Ok (VObj d :: rest) ->
  get "count" d = Some (VArr (VObj c :: cs)) ->
  snd (_getItemsAndCount config req o)
  = Ok {| PageResult.items := field "items" d;
          PageResult.count := field "count" c |}.
Proof.
  intros Hq Hne Hon Hb Hagg Hc.
  rewrite (getItemsAndCount_pipeline config req o stages built Hq Hne Hon Hb).
  unfold aggregateM, io_bind at 1. rewrite Hagg.
  cbn [hd member]. rewrite !io_bind_ok.
  replace (field "count" d) with (VArr (VObj c :: cs))
    by (unfold field; now rewrite Hc).
  unfold first_count. cbn [hd bind member]. now rewrite io_bind_ok.
Qed.

(** X5. With [runAggregate=on] and a resolved query that is the empty
    sequence, the executor behaves as the direct path on the empty filter:
    one find and one count over [{}]. *)
Theorem empty_pipeline_runs_unfiltered (req : request) (o : QueryOptions.t) :
  _getQuery req = Ok (VArr []) ->
  Query.runAggregate (params req) = Some "on" ->
  _getItemsAndCount config req o = direct config (VObj []) o
  /\ fst (_getItemsAndCount config req o)
     = [Find (VObj []) (with_disk_use config o); Count (VObj [])].
Proof.
  intros Hq Hon.
  rewrite (getItemsAndCount_empty_pipeline config req o Hq Hon).
  split; [reflexivity | apply direct_calls].
Qed.

(** X6. A resolved query goes to the direct path unchanged when the request
    does not carry [runAggregate=on], and also when it does but the query is
    a mapping without a property of its own called [constructor]. *)
Theorem filter_runs_direct (req : request) (o : QueryOptions.t) (q : jsval) :
  _getQuery req = Ok q ->
  Query.runAggregate (params req) <> Some "on"
  \/ (exists d, q = VObj d /\ get "constructor" d = None) ->
  _getItemsAndCount config req o = direct config q o.
Proof.
  intros Hq [Hoff | (d & -> & Hc)].
  - now apply getItemsAndCount_not_requested.
  - now apply getItemsAndCount_mapping.
Qed.

(** X7. The direct path issues the find and the count over the same filter,
    pages the find by the resolved sort, skip, limit and projection, and
    produces a page exactly when both operations answer; the page carries
    the find's documents and the count's answer. *)
Theorem direct_path_contract (q : jsval) (o : QueryOptions.t) :
  let o' := with_disk_use config o in
  fst (direct config q o) = [Find q o'; Count q]
  /\ (QueryOptions.sort o' = QueryOptions.sort o
      /\ QueryOptions.limit o' = QueryOptions.limit o
      /\ QueryOptions.skip o' = QueryOptions.skip o
      /\ QueryOptions.projection o' = QueryOptions.projection o)
  /\ (forall page,
        snd (direct config q o) = Ok page <->
        exists its n,
          find q o' = Ok its /\ count q = Ok n
          /\ page = {| PageResult.items := VArr its; PageResult.count := n |}).
Proof.
  cbv zeta. split; [apply direct_calls|]. split.
  - unfold with_disk_use. destruct (_ && _); repeat split.
  - intros page. apply direct_result.
Qed.

(** X8. When the query builder throws, the executor issues no store
    operation and throws the same error. *)
Theorem bad_query_issues_nothing (req : request) (o : QueryOptions.t)
    (e : exn) :
  _getQuery req = Throw e ->
  _getItemsAndCount config req o = ([], Throw e).
Proof.
  intros Hq. unfold _getItemsAndCount. now rewrite Hq.
Qed.

End ExecutorContracts.

Lemma aggregation_issues_one_aggregate_witness :
  exists built,
    fst (_getItemsAndCount (rt := double_runtime) (bson := double_bson)
           (coll := double_collection) default_config match_request
           (_getQueryOptions (bson := double_bson) default_config
              match_request))
    = [Aggregate built false].
Proof.
  eexists.
  apply (@aggregation_issues_one_aggregate double_runtime double_bson
           double_collection default_config match_request
           (_getQueryOptions (bson := double_bson) default_config
              match_request)
           [VObj [("$match", VObj [("x", VInt 1)])]]).
  - reflexivity.
  - discriminate.
  - reflexivity.
  - reflexivity.
Defined.

Lemma aggregation_page_from_facet_witness :
  snd (_getItemsAndCount (rt := double_runtime) (bson := double_bson)
         (coll := one_count_store) default_config match_request
         (_getQueryOptions (bson := double_bson) default_config match_request))
  = Ok {| PageResult.items := VArr [VObj [("x", VInt 1)]];
          PageResult.count := VInt 7 |}.
Proof.
  eapply (@aggregation_page_from_facet double_runtime double_bson
           one_count_store default_config match_request
           (_getQueryOptions (bson := double_bson) default_config
              match_request)
           [VObj [("$match", VObj [("x", VInt 1)])]] _ [] []
           [("count", VArr [VObj [("count", VInt 7)]]);
            ("items", VArr [VObj [("x", VInt 1)]])]
           [("count", VInt 7)]).
  - reflexivity.
  - discriminate.
  - reflexivity.
  - reflexivity.
  - reflexivity.
  - reflexivity.
Defined.

Lemma empty_pipeline_runs_unfiltered_witness :
  fst (_getItemsAndCount (rt := double_runtime) (bson := double_bson)
         (coll := double_collection) default_config
         (with_runAggregate (with_query "[]"))
         (_getQueryOptions (bson := double_bson) default_config
            (with_query "[]")))
  = [Find (VObj [])
       (_getQueryOptions (bson := double_bson) default_config
          (with_query "[]"));
     Count (VObj [])].
Proof.
  refine (proj2 (@empty_pipeline_runs_unfiltered double_runtime double_bson
                   double_collection default_config
                   (with_runAggregate (with_query "[]"))
                   (_getQueryOptions (bson := double_bson) default_config
                      (with_query "[]")) _ _)).
  - reflexivity.
  - reflexivity.
Defined.

Lemma filter_runs_direct_witness :
  fst (_getItemsAndCount (rt := double_runtime) (bson := double_bson)
         (coll := double_collection) default_config
         (with_runAggregate (with_query "{x:1}"))
         (_getQueryOptions (bson := double_bson) default_config
            (with_query "{x:1}")))
  = [Find (VObj [("x", VInt 1)])
       (_getQueryOptions (bson := double_bson) default_config
          (with_query "{x:1}"));
     Count (VObj [("x", VInt 1)])].
Proof.
  rewrite (@filter_runs_direct double_runtime double_bson double_collection
             default_config (with_runAggregate (with_query "{x:1}"))
             (_getQueryOptions (bson := double_bson) default_config
                (with_query "{x:1}"))
             (VObj [("x", VInt 1)])).
  - reflexivity.
  - reflexivity.
  - right. exists [("x", VInt 1)]. split; reflexivity.
Defined.

Lemma bad_query_issues_nothing_witness :
  _getItemsAndCount (rt := double_runtime) (bson := double_bson)
    (coll := double_collection) default_config (with_query "{x:")
    (_getQueryOptions (bson := double_bson) default_config
       (with_query "{x:"))
  = ([], Throw (Error "Query entered is not valid")).
Proof.
  apply (@bad_query_issues_nothing double_runtime double_bson
           double_collection default_config (with_query "{x:")).
  reflexivity.
Defined.

(** ** Size guard and columns *)

Section GuardContracts.
Context {rt : Runtime} {utils : Utils}.
Variable config : Config.

Local Abbreviation size := roughSizeOfObject.

Lemma keys_fold_left (f : doc -> string -> doc) (ks : list string) :
  (forall d k, keys (f d k) = keys d) ->
  forall item, keys (fold_left f ks item) = keys item.
Proof.
  intros Hf. induction ks as [|k ks IH]; intros item; [reflexivity|].
  cbn [fold_left]. now rewrite IH, Hf.
Qed.

Lemma keys_prepProp (d : doc) (k : string) :
  keys (prepProp config d k) = keys d.
Proof. unfold prepProp. destruct (_ >? _); [apply keys_set | reflexivity]. Qed.

Lemma keys_prepRowProp (d : doc) (k : string) :
  keys (prepRowProp config d k) = keys d.
Proof.
  unfold prepRowProp. destruct (_ && _); [apply keys_set | reflexivity].
Qed.

Lemma keys_sizeGuard (item : doc) : keys (sizeGuard config item) = keys item.
Proof.
  unfold sizeGuard, perRowPass, perFieldPass.
  destruct (_ >? _).
  - rewrite keys_fold_left by apply keys_prepRowProp.
    apply keys_fold_left, keys_prepProp.
  - apply keys_fold_left, keys_prepProp.
Qed.

Lemma keys_viewCollection_docs (items : list doc) :
  map keys (viewCollection_docs config items) = map keys items.
Proof.
  unfold viewCollection_docs. rewrite map_map. apply map_ext.
  exact keys_sizeGuard.
Qed.

Lemma fieldPass_positions (item : doc) :
  forall id,
    Forall2 (fun kv kv' => fst kv' = fst kv
                           /\ stubbed_once (fst kv) (snd kv) (snd kv'))
            item (fieldPass config id item).
Proof.
  induction item as [|[k v] rest IH]; intros id; [constructor|].
  cbn [fieldPass]. destruct (size v >? maxPropSize config).
  - constructor; [|apply IH]. split; [reflexivity|]. right. cbn [fst snd].
    eauto.
  - constructor; [|apply IH]. split; [reflexivity | now left].
Qed.

Lemma rowMap_positions (id : jsval) (item : doc) :
  Forall2 (fun kv kv' => fst kv' = fst kv
                         /\ stubbed_once (fst kv) (snd kv) (snd kv'))
          item (rowMap config id item).
Proof.
  unfold rowMap. induction item as [|[k v] rest IH]; [constructor|].
  cbn [map]. constructor; [|exact IH]. unfold rowField.
  destruct (_ && _); cbn [fst snd]; split; try reflexivity.
  - right. eauto.
  - now left.
Qed.

Lemma two_passes (a : doc) :
  forall b c,
    Forall2 (fun kv kv' => fst kv' = fst kv
                           /\ stubbed_once (fst kv) (snd kv) (snd kv')) a b ->
    Forall2 (fun kv kv' => fst kv' = fst kv
                           /\ stubbed_once (fst kv) (snd kv) (snd kv')) b c ->
    same_document a c.
Proof.
  unfold same_document.
  induction a as [|x a IH]; intros b c Hab Hbc;
    inversion Hab as [|? y ? b' [Hk1 H1] Hab']; subst;
    inversion Hbc as [|? z ? c' [Hk2 H2] Hbc']; subst; constructor.
  - split; [congruence|]. exists (snd y). split; [exact H1|].
    now rewrite <- Hk1.
  - now apply (IH b').
Qed.

Lemma sizeGuard_same_document (item : doc) :
  NoDup (keys item) -> same_document item (sizeGuard config item).
Proof.
  intros Hnd. unfold sizeGuard.
  rewrite (perFieldPass_fieldPass config item Hnd).
  set (p1 := fieldPass config (field "_id" item) item).
  assert (Hnd1 : NoDup (keys p1))
    by (unfold p1; now rewrite keys_fieldPass).
  rewrite (perRowPass_rowMap config p1 Hnd1).
  apply (two_passes item p1); [apply fieldPass_positions|].
  destruct (_ >? _); [apply rowMap_positions|].
  clear. induction p1 as [|kv p1 IH]; constructor; [|exact IH].
  split; [reflexivity | now left].
Qed.

(** X9. The guard keeps the result set: the page keeps the number of its
    documents and every document its property names in their order; and
    with property names unique within each document, the document at each
    position of the guarded page is the document the store returned at that
    position, each value kept or replaced by a stub that describes it. *)
Theorem guard_keeps_names_and_documents (items : list doc) :
  map keys (viewCollection_docs config items) = map keys items
  /\ List.length (viewCollection_docs config items) = List.length items
  /\ (Forall (fun item => NoDup (keys item)) items ->
      Forall2 same_document items (viewCollection_docs config items)).
Proof.
  split; [apply keys_viewCollection_docs|].
  unfold viewCollection_docs. split; [apply length_map|].
  induction 1 as [|item items Hnd _ IH]; cbn [map]; constructor;
    [now apply sizeGuard_same_document | exact IH].
Qed.

Lemma prepProp_frame (k : string) (ks : list string) :
  forall item,
    size (field k item) <= maxPropSize config ->
    field k (fold_left (prepProp config) ks item) = field k item.
Proof.
  induction ks as [|k' ks IH]; intros item Hsz; [reflexivity|].
  cbn [fold_left].
  assert (Hstep : field k (prepProp config item k') = field k item).
  { unfold prepProp. destruct (size (field k' item) >? _) eqn:E;
      [|reflexivity].
    destruct (String.eqb_spec k' k) as [->|Hne].
    - rewrite Z.gtb_ltb in E. apply Z.ltb_lt in E. lia.
    - unfold field. now rewrite get_set_other. }
  rewrite IH; rewrite Hstep; [reflexivity | exact Hsz].
Qed.

(** X10. The per-field pass leaves alone every property whose computed size
    is within the per-field threshold. *)
Theorem field_pass_keeps_small_properties (item : doc) (k : string) :
  size (field k item) <= maxPropSize config ->
  field k (perFieldPass config item) = field k item.
Proof. apply prepProp_frame. Qed.

(** X11. An identifier whose computed size is within the per-field
    threshold comes out of the whole guard unchanged, whatever happens to
    the other properties. *)
Theorem small_identifier_survives_guard (item : doc) :
  size (field "_id" item) <= maxPropSize config ->
  field "_id" (sizeGuard config item) = field "_id" item.
Proof.
  intros Hsz. unfold sizeGuard. rewrite perRowPass_keeps_id.
  now apply prepProp_frame.
Qed.

(** X12. A page whose documents are all within both thresholds is handed on
    as it is. *)
Theorem page_within_thresholds_untouched (items : list doc) :
  Forall (fun item => fields_within (maxPropSize config) item
                      /\ size (VObj item) <= maxRowSize config) items ->
  viewCollection_docs config items = items.
Proof.
  intros Hall. unfold viewCollection_docs.
  induction Hall as [|item items [Hf Hr] _ IH]; [reflexivity|].
  cbn [map]. now rewrite IH, (sizeGuard_within config item Hf Hr).
Qed.

(** X13. After the per-field pass every property is either a stub or within
    the per-field threshold. *)
Theorem field_pass_bounds_every_property (item : doc) :
  NoDup (keys item) ->
  Forall (fun kv => is_stub (snd kv) = true
                    \/ size (snd kv) <= maxPropSize config)
         (perFieldPass config item).
Proof.
  intros Hnd. rewrite (perFieldPass_fieldPass config item Hnd).
  apply fieldPass_fields.
Qed.

Lemma fieldPass_stub (item : doc) (k : string) (v : jsval) :
  forall id,
    get k item = Some v -> size v > maxPropSize config ->
    exists id',
      get k (fieldPass config id item)
      = Some (stub_of "*** LARGE PROPERTY ***" (maxPropSize config) k v id').
Proof.
  induction item as [|[k' v'] rest IH]; intros id Hget Hbig; [discriminate|].
  cbn [get] in Hget. cbn [fieldPass].
  destruct (String.eqb_spec k' k) as [->|Hne].
  - injection Hget as ->.
    replace (size v >? maxPropSize config) with true
      by (symmetry; rewrite Z.gtb_ltb; apply Z.ltb_lt; lia).
    exists id. cbn [get]. now rewrite String.eqb_refl.
  - destruct (size v' >? maxPropSize config); cbn [get];
      destruct (String.eqb_spec k' k); try congruence; now apply IH.
Qed.

(** X14. A property whose computed size exceeds the per-field threshold is
    replaced by a stub that names the property and records the size and a
    preview of the value it replaces. *)
Theorem field_pass_stub_describes_value (item : doc) (k : string) :
  NoDup (keys item) -> In k (keys item) ->
  size (field k item) > maxPropSize config ->
  exists id,
    field k (perFieldPass config item)
    = VObj [ ("attribu", VStr k);
             ("display", VStr "*** LARGE PROPERTY ***");
             ("humanSz", VStr (bytesToSize (size (field k item))));
             ("maxSize", VStr (bytesToSize (maxPropSize config)));
             ("preview", VStr (slice25 (JSON_stringify (field k item))));
             ("roughSz", VInt (size (field k item)));
             ("_id", id) ].
Proof.
  intros Hnd Hin Hbig. rewrite (perFieldPass_fieldPass config item Hnd).
  destruct (get_in k item Hin) as (v & Hget & _).
  unfold field in *. rewrite Hget in *.
  destruct (fieldPass_stub item k v
              (match get "_id" item with Some x => x | None => VUndefined end)
              Hget Hbig) as [id' ->].
  now exists id'.
Qed.

(** X15. When the row is still over the per-row threshold after the first
    pass, the guard leaves no property other than [_id] that is neither a
    stub nor within 200. *)
Theorem row_pass_bounds_every_property (item : doc) :
  NoDup (keys item) ->
  size (VObj (perFieldPass config item)) > maxRowSize config ->
  Forall (fun kv => fst kv = "_id" \/ is_stub (snd kv) = true
                    \/ size (snd kv) <= 200)
         (sizeGuard config item).
Proof.
  intros Hnd Hbig. unfold sizeGuard.
  assert (Hnd1 : NoDup (keys (perFieldPass config item))).
  { unfold perFieldPass.
    now rewrite keys_fold_left by apply keys_prepProp. }
  rewrite (perRowPass_rowMap config _ Hnd1).
  replace (size (VObj (perFieldPass config item)) >? maxRowSize config)
    with true by (symmetry; rewrite Z.gtb_ltb; apply Z.ltb_lt; lia).
  eapply Forall_impl; [|apply rowMap_fields].
  intros kv [H | [_ [H | H]]]; auto.
Qed.

End GuardContracts.

Lemma field_pass_keeps_small_properties_witness :
  field "n"
    (perFieldPass (rt := double_runtime) (utils := double_utils)
       small_config long_id_item)
  = VInt 1.
Proof.
  apply (@field_pass_keeps_small_properties double_runtime double_utils
           small_config long_id_item "n").
  vm_compute. discriminate.
Defined.

Lemma small_identifier_survives_guard_witness :
  field "_id"
    (sizeGuard (rt := double_runtime) (utils := double_utils)
       small_config (bio_item 60))
  = VInt 1.
Proof.
  apply (@small_identifier_survives_guard double_runtime double_utils
           small_config (bio_item 60)).
  vm_compute. discriminate.
Defined.

Lemma page_within_thresholds_untouched_witness :
  viewCollection_docs (rt := double_runtime) (utils := double_utils)
    small_config [bio_item 20; bio_item 30]
  = [bio_item 20; bio_item 30].
Proof.
  apply (@page_within_thresholds_untouched double_runtime double_utils
           small_config [bio_item 20; bio_item 30]).
  repeat constructor; vm_compute; discriminate.
Defined.

Lemma field_pass_bounds_every_property_witness :
  Forall (fun kv => is_stub (snd kv) = true
                    \/ Double.roughSizeOfObject (snd kv) <= 50)
         (perFieldPass (rt := double_runtime) (utils := double_utils)
            small_config (bio_item 60)).
Proof.
  apply (@field_pass_bounds_every_property double_runtime double_utils
           small_config (bio_item 60)).
  repeat constructor; simpl; intuition discriminate.
Defined.

Lemma field_pass_stub_describes_value_witness :
  exists id,
    field "bio"
      (perFieldPass (rt := double_runtime) (utils := double_utils)
         small_config (bio_item 60))
    = VObj [ ("attribu", VStr "bio");
             ("display", VStr "*** LARGE PROPERTY ***");
             ("humanSz", VStr "60 Bytes");
             ("maxSize", VStr "50 Bytes");
             ("preview", VStr (Double.dq ++ replicate 24 "a"));
             ("roughSz", VInt 60);
             ("_id", id) ].
Proof.
  apply (@field_pass_stub_describes_value double_runtime double_utils
           small_config (bio_item 60) "bio").
  - repeat constructor; simpl; intuition discriminate.
  - simpl. auto.
  - reflexivity.
Defined.

(** A configuration whose per-row threshold is below its per-field one. *)
Lemma row_pass_bounds_every_property_witness :
  Forall (fun kv => fst kv = "_id" \/ is_stub (snd kv) = true
                    \/ Double.roughSizeOfObject (snd kv) <= 200)
         (sizeGuard (rt := double_runtime) (utils := double_utils)
            {| documentsPerPage := 10; maxPropSize := 1000; maxRowSize := 100;
               allowDiskUse := false; awsDocumentDb := false |}
            (bio_item 300)).
Proof.
  apply (@row_pass_bounds_every_property double_runtime double_utils
           {| documentsPerPage := 10; maxPropSize := 1000; maxRowSize := 100;
              allowDiskUse := false; awsDocumentDb := false |}
           (bio_item 300)).
  - repeat constructor; simpl; intuition discriminate.
  - reflexivity.
Defined.

(** *** Columns *)

Lemma indexOf_in_prefix (x : string) (pre l : list string) :
  In x pre -> 0 <= indexOf x (pre ++ l)%list < Z.of_nat (List.length pre).
Proof.
  induction pre as [|p pre IH]; intros Hin; [destruct Hin|].
  cbn [app indexOf List.length]. rewrite Nat2Z.inj_succ.
  destruct (String.eqb_spec p x) as [->|Hne]; [lia|].
  destruct Hin as [Hin|Hin]; [congruence|].
  specialize (IH Hin).
  replace (indexOf x (pre ++ l)%list <? 0) with false
    by (symmetry; apply Z.ltb_ge; lia).
  lia.
Qed.

Lemma indexOf_first (x : string) (pre r : list string) :
  ~ In x pre ->
  indexOf x (pre ++ x :: r)%list = Z.of_nat (List.length pre).
Proof.
  induction pre as [|p pre IH]; intros Hnin.
  - cbn [app indexOf List.length]. now rewrite String.eqb_refl.
  - cbn [app indexOf List.length]. rewrite Nat2Z.inj_succ.
    destruct (String.eqb_spec p x) as [->|Hne];
      [exfalso; apply Hnin; now left|].
    rewrite IH by (intros H; apply Hnin; now right).
    replace (Z.of_nat (List.length pre) <? 0) with false
      by (symmetry; apply Z.ltb_ge; lia).
    lia.
Qed.

Lemma filter_from_first_occurrences (arr suf : list string) :
  forall pre,
    arr = (pre ++ suf)%list ->
    let kept :=
      filter_from (fun value index => indexOf value arr =? index)
        (Z.of_nat (List.length pre)) suf in
    NoDup kept /\ forall y, In y kept <-> In y suf /\ ~ In y pre.
Proof.
  induction suf as [|x r IH]; intros pre Harr; cbv zeta.
  - cbn [filter_from]. split; [constructor|]. intros y. cbn [In]. tauto.
  - cbn [filter_from].
    assert (Harr' : arr = ((pre ++ [x]) ++ r)%list)
      by now rewrite <- app_assoc.
    specialize (IH (pre ++ [x])%list Harr'). cbv zeta in IH.
    rewrite length_app, Nat2Z.inj_add in IH. cbn [List.length] in IH.
    change (Z.of_nat 1) with 1 in IH.
    destruct IH as [IHnd IHin].
    destruct (in_dec string_dec x pre) as [Hin|Hnin].
    + pose proof (indexOf_in_prefix x pre (x :: r) Hin) as Hlt.
      rewrite <- Harr in Hlt.
      replace (indexOf x arr =? Z.of_nat (List.length pre)) with false
        by (symmetry; apply Z.eqb_neq; lia).
      split; [exact IHnd|]. intros y. rewrite IHin, in_app_iff. cbn [In].
      split.
      * intros [Hr Hn]. split; [now right | tauto].
      * intros [[<-|Hr] Hn]; [contradiction|]. split; [exact Hr|].
        intros [H|[<-|[]]]; contradiction.
    + pose proof (indexOf_first x pre r Hnin) as Heq.
      rewrite <- Harr in Heq. rewrite Heq, Z.eqb_refl.
      split.
      * constructor; [|exact IHnd]. rewrite IHin, in_app_iff. cbn [In].
        tauto.
      * intros y. cbn [In]. rewrite IHin, in_app_iff. cbn [In].
        destruct (string_dec x y) as [<-|Hne]; [tauto|]. tauto.
Qed.

(** X16. The column list has no duplicates and holds exactly the property
    names that occur in the documents of the page. *)
Theorem columns_are_the_distinct_names (docs : list doc) :
  NoDup (columns_of docs)
  /\ forall c, In c (columns_of docs) <-> exists d, In d docs /\ In c (keys d).
Proof.
  unfold columns_of, remove_duplicates.
  destruct (filter_from_first_occurrences
              (List.concat (map keys docs)) (List.concat (map keys docs)) []
              eq_refl) as [Hnd Hin].
  cbn [List.length] in Hnd, Hin. change (Z.of_nat 0) with 0 in Hnd, Hin.
  split; [exact Hnd|]. intros c. rewrite Hin, in_concat. split.
  - intros [(ks & Hks & Hc) _]. apply in_map_iff in Hks as (d & <- & Hd).
    now exists d.
  - intros (d & Hd & Hc). split; [|tauto].
    exists (keys d). split; [now apply in_map | exact Hc].
Qed.

(** X17. Redaction does not change the columns: the column list of the
    guarded page is the column list of the page as the store returned it. *)
Theorem guard_keeps_columns {rt : Runtime} {utils : Utils} (config : Config)
    (items : list doc) :
  columns_of (viewCollection_docs config items) = columns_of items.
Proof.
  unfold columns_of.
  now rewrite (keys_viewCollection_docs config items).
Qed.

(** ** Importer *)

(** Induction along the cases of [skip_ws]. *)
Lemma skip_ws_ind (P : string -> Prop) :
  P "" ->
  (forall c1 r1, is_ws c1 = true -> P r1 -> P (String c1 r1)) ->
  (forall c1 c2 r2, is_ws c1 = false -> is_ws2 c1 c2 = true -> P r2 ->
     P (String c1 (String c2 r2))) ->
  (forall c1 c2 c3 r3, is_ws c1 = false -> is_ws2 c1 c2 = false ->
     is_ws3 c1 c2 c3 = true -> P r3 -> P (String c1 (String c2 (String c3 r3)))) ->
  (forall s, s <> "" -> skip_ws s = s -> P s) ->
  forall s, P s.
Proof.
  intros H0 H1 H2 H3 H4.
  assert (H : forall n s, (String.length s <= n)%nat -> P s).
  { induction n as [|n IH]; intros s Hn.
    - destruct s; [exact H0 | simpl in Hn; lia].
    - destruct s as [|c1 r1]; [exact H0|]. simpl in Hn.
      destruct (is_ws c1) eqn:E1; [apply H1; auto; apply IH; lia|].
      destruct r1 as [|c2 r2].
      { apply H4; [discriminate|]. cbn [skip_ws]. now rewrite E1. }
      simpl in Hn.
      destruct (is_ws2 c1 c2) eqn:E2; [apply H2; auto; apply IH; lia|].
      destruct r2 as [|c3 r3].
      { apply H4; [discriminate|]. cbn [skip_ws]. now rewrite E1, E2. }
      simpl in Hn.
      destruct (is_ws3 c1 c2 c3) eqn:E3; [apply H3; auto; apply IH; lia|].
      apply H4; [discriminate|]. cbn [skip_ws]. now rewrite E1, E2, E3. }
  intros s. now apply (H (String.length s)).
Qed.

Lemma skip_ws_step1 c1 r1 : is_ws c1 = true -> skip_ws (String c1 r1) = skip_ws r1.
Proof. intros E. cbn [skip_ws]. now rewrite E. Qed.
Lemma skip_ws_step2 c1 c2 r2 :
  is_ws c1 = false -> is_ws2 c1 c2 = true ->
  skip_ws (String c1 (String c2 r2)) = skip_ws r2.
Proof. intros E1 E2. cbn [skip_ws]. now rewrite E1, E2. Qed.
Lemma skip_ws_step3 c1 c2 c3 r3 :
  is_ws c1 = false -> is_ws2 c1 c2 = false -> is_ws3 c1 c2 c3 = true ->
  skip_ws (String c1 (String c2 (String c3 r3))) = skip_ws r3.
Proof. intros E1 E2 E3. cbn [skip_ws]. now rewrite E1, E2, E3. Qed.

Lemma skip_ws_idempotent s : skip_ws (skip_ws s) = skip_ws s.
Proof.
  induction s using skip_ws_ind.
  - reflexivity.
  - now rewrite skip_ws_step1.
  - now rewrite skip_ws_step2.
  - now rewrite skip_ws_step3.
  - now rewrite !H0.
Qed.

Lemma skip_ws_length s : (String.length (skip_ws s) <= String.length s)%nat.
Proof.
  induction s using skip_ws_ind.
  - simpl; lia.
  - rewrite skip_ws_step1 by assumption. simpl. lia.
  - rewrite skip_ws_step2 by assumption. simpl. lia.
  - rewrite skip_ws_step3 by assumption. simpl. lia.
  - rewrite H0. lia.
Qed.

Lemma all_ws_app a : forall b, all_ws a = true -> skip_ws (a ++ b) = skip_ws b.
Proof.
  unfold all_ws. induction a using skip_ws_ind; intros b Ha.
  - reflexivity.
  - rewrite skip_ws_step1 in Ha by assumption. cbn [append].
    rewrite skip_ws_step1 by assumption. now apply IHa.
  - rewrite skip_ws_step2 in Ha by assumption. cbn [append].
    rewrite skip_ws_step2 by assumption. now apply IHa.
  - rewrite skip_ws_step3 in Ha by assumption. cbn [append].
    rewrite skip_ws_step3 by assumption. now apply IHa.
  - rewrite H0 in Ha. destruct a; [congruence | discriminate].
Qed.

Lemma trimEnd_split s : exists w, s = trimEnd s ++ w /\ all_ws w = true.
Proof.
  induction s as [|c r IH]; [now exists ""|].
  cbn [trimEnd]. destruct (all_ws (String c r)) eqn:E.
  - now exists (String c r).
  - destruct IH as (w & Hr & Hw). exists w. split; [|exact Hw].
    cbn [append]. now rewrite <- Hr.
Qed.

Lemma trimEnd_idempotent s : trimEnd (trimEnd s) = trimEnd s.
Proof.
  induction s as [|c r IH]; [reflexivity|].
  cbn [trimEnd]. destruct (all_ws (String c r)) eqn:E; [reflexivity|].
  cbn [trimEnd]. rewrite IH.
  destruct (all_ws (String c (trimEnd r))) eqn:E'; [|reflexivity].
  exfalso. destruct (trimEnd_split r) as (w & Hr & Hw).
  assert (H : skip_ws (String c r) = skip_ws w).
  { rewrite Hr at 1. change (String c (trimEnd r ++ w)) with (String c (trimEnd r) ++ w).
    now apply all_ws_app. }
  unfold all_ws in E, Hw. rewrite H in E. destruct (skip_ws w); congruence.
Qed.

Lemma skip_ws_prefix (t w : string) :
  t <> "" -> skip_ws (t ++ w) = t ++ w -> skip_ws t = t.
Proof.
  intros Hne H.
  assert (Hlen : forall c x y, skip_ws x = String c y -> (String.length y < String.length x)%nat).
  { intros c x y Hx. pose proof (skip_ws_length x) as L. rewrite Hx in L. simpl in L. lia. }
  destruct t as [|c1 r1]; [congruence|]. cbn [append] in H.
  destruct (is_ws c1) eqn:E1.
  { rewrite skip_ws_step1 in H by assumption. apply Hlen in H. lia. }
  destruct r1 as [|c2 r2]; [cbn [skip_ws]; now rewrite E1|]. cbn [append] in H.
  destruct (is_ws2 c1 c2) eqn:E2.
  { rewrite skip_ws_step2 in H by assumption. apply Hlen in H. simpl in H. lia. }
  destruct r2 as [|c3 r3]; [cbn [skip_ws]; now rewrite E1, E2|]. cbn [append] in H.
  destruct (is_ws3 c1 c2 c3) eqn:E3.
  { rewrite skip_ws_step3 in H by assumption. apply Hlen in H. simpl in H. lia. }
  cbn [skip_ws]. now rewrite E1, E2, E3.
Qed.

Lemma trim_idempotent s : trim (trim s) = trim s.
Proof.
  unfold trim. set (t := skip_ws s).
  assert (Ht : skip_ws t = t) by apply skip_ws_idempotent.
  destruct (trimEnd_split t) as (w & Hsplit & _).
  destruct (trimEnd t) as [|c r] eqn:E; [reflexivity|].
  rewrite (skip_ws_prefix (String c r) w); [| discriminate | now rewrite <- Hsplit].
  rewrite <- E. apply trimEnd_idempotent.
Qed.

(** A byte-order mark and no-break spaces are trimmed like any white
    space. *)
Example lines_of_marked_payload :
  lines_of (bom ++ " [{}]" ++ nbsp ++ nl ++ nbsp ++ nl ++ "[]") = ["[{}]"; "[]"].
Proof. reflexivity. Qed.

(** X18. No blank line reaches the parser: every line the importer parses
    is non-empty and carries no whitespace at either end. *)
Theorem imported_lines_are_trimmed (fileContent line : string) :
  In line (lines_of fileContent) -> line <> "" /\ trim line = line.
Proof.
  unfold lines_of. intros Hin. apply filter_In in Hin as [Hin Hne].
  apply in_map_iff in Hin as (raw & <- & _). split.
  - unfold nonempty in Hne. apply negb_true_iff in Hne.
    now apply String.eqb_neq in Hne.
  - apply trim_idempotent.
Qed.

Lemma imported_lines_are_trimmed_witness :
  "[{}]" <> "" /\ trim "[{}]" = "[{}]".
Proof.
  apply (imported_lines_are_trimmed ("  {}  " ++ nl ++ "   " ++ nl ++ " [{}] ")).
  vm_compute. auto.
Defined.

Section ImporterContracts.
Context {bson : Bson} {coll : Collection}.

(** X19. The importer issues at most one store operation, an [insertMany].
    It answers 400 exactly when it issues none; otherwise it answers 200
    with the count the store confirms, or 500 when the store fails. *)
Theorem import_answers_follow_the_store (req : request) :
  (fst (importCollection req) = []
   /\ status (snd (importCollection req)) = 400)
  \/ exists docs,
       fst (importCollection req) = [InsertMany docs]
       /\ match insertMany docs with
          | Ok n =>
              snd (importCollection req)
              = {| status := 200; sent := Inserted n |}
          | Throw _ =>
              snd (importCollection req)
              = {| status := 500; sent := Text "Server error" |}
          end.
Proof.
  unfold importCollection. destruct (files req) as [fs|]; [|now left].
  destruct (existsb invalid_file fs); [now left|].
  destruct (parse_files fs []) as [docs|e]; [|now left].
  right. exists docs. split; [reflexivity|].
  now destruct (insertMany docs).
Qed.

Lemma parse_lines_in_order (elems_of : string -> list jsval)
    (lines : list string) :
  (forall line, In line lines -> EJSON_parse line = Ok (VArr (elems_of line))) ->
  forall docs,
    parse_lines lines docs = Ok (docs ++ flat_map elems_of lines)%list.
Proof.
  induction lines as [|l lines IH]; intros Hall docs.
  - cbn. now rewrite app_nil_r.
  - cbn [parse_lines flat_map]. rewrite (Hall l) by now left.
    cbn [bind spread]. rewrite IH by (intros; apply Hall; now right).
    now rewrite app_assoc.
Qed.

Lemma parse_files_in_order (elems_of : string -> list jsval)
    (fs : list file) :
  (forall f content line,
      In f fs -> data f = Some content -> In line (lines_of content) ->
      EJSON_parse line = Ok (VArr (elems_of line))) ->
  Forall (fun f => data f <> None) fs ->
  forall docs,
    parse_files fs docs
    = Ok (docs
          ++ flat_map (fun f =>
               flat_map elems_of
                 (lines_of (match data f with Some s => s | None => "" end)))
               fs)%list.
Proof.
  induction fs as [|f fs IH]; intros Hall Hdata docs.
  - cbn. now rewrite app_nil_r.
  - cbn [parse_files flat_map]. inversion Hdata as [|? ? Hf Hfs]; subst.
    destruct (data f) as [content|] eqn:E; [|congruence].
    rewrite (parse_lines_in_order elems_of)
      by (intros line Hl; eapply (Hall f content); [now left | exact E | exact Hl]).
    cbn [bind]. rewrite IH.
    + now rewrite app_assoc.
    + intros f' content' line Hin. apply Hall. now right.
    + exact Hfs.
Qed.

(** X20. When every payload has an allowed content type and every non-blank
    line parses to an array, the importer inserts, in one [insertMany], the
    elements of all lines in the order of the payloads, of the lines within
    a payload and of the elements within a line. *)
Theorem import_inserts_in_file_order (req : request) (fs : list file)
    (elems_of : string -> list jsval) :
  files req = Some fs ->
  existsb invalid_file fs = false ->
  (forall f content line,
      In f fs -> data f = Some content -> In line (lines_of content) ->
      EJSON_parse line = Ok (VArr (elems_of line))) ->
  fst (importCollection req)
  = [InsertMany
       (flat_map (fun f =>
          flat_map elems_of
            (lines_of (match data f with Some s => s | None => "" end))) fs)].
Proof.
  intros Hfs Hvalid Hall. unfold importCollection. rewrite Hfs, Hvalid.
  rewrite (parse_files_in_order elems_of fs Hall).
  - reflexivity.
  - apply Forall_forall. intros f Hin Hnone.
    assert (H : existsb invalid_file fs = true).
    { apply existsb_exists. exists f. split; [exact Hin|].
      unfold invalid_file. rewrite Hnone. apply orb_true_r. }
    congruence.
Qed.

End ImporterContracts.

Lemma import_inserts_in_file_order_witness :
  fst (importCollection (bson := double_bson) (coll := double_collection)
         (upload_files
            [ {| mimetype := "application/json";
                 data := Some ("[" ++ line_a ++ "]" ++ nl ++ "[{}]") |};
              {| mimetype := "text/csv";
                 data := Some ("[" ++ line_b ++ "]") |} ]))
  = [InsertMany [VObj [("a", VInt 1)]; VObj []; VObj [("b", VInt 2)]]].
Proof.
  rewrite (@import_inserts_in_file_order double_bson double_collection
             (upload_files
                [ {| mimetype := "application/json";
                     data := Some ("[" ++ line_a ++ "]" ++ nl ++ "[{}]") |};
                  {| mimetype := "text/csv";
                     data := Some ("[" ++ line_b ++ "]") |} ])
             [ {| mimetype := "application/json";
                  data := Some ("[" ++ line_a ++ "]" ++ nl ++ "[{}]") |};
               {| mimetype := "text/csv";
                  data := Some ("[" ++ line_b ++ "]") |} ]
             (fun line =>
                match Double.EJSON_parse line with
                | Ok (VArr l) => l
                | _ => []
                end)).
  - reflexivity.
  - reflexivity.
  - reflexivity.
  - intros f content line [<-|[<-|[]]] [= <-] Hl; vm_compute in Hl;
      intuition (subst; reflexivity).
Defined.

(** ** Administrative routes *)

Section AdminContracts.
Context {rt : Runtime} {bson : Bson} {store : Store.t} {helpers : Helpers}.
Variable guards : Guards.
Variable place : Place.

(** X21. With [readOnly] or [noDelete] set, neither [deleteCollection] nor
    [dropIndex] issues a store operation, whatever the request. *)
Theorem guards_block_deletion (req : request) (name : option string) :
  readOnly guards = true \/ noDelete guards = true ->
  fst (deleteCollection guards place req) = []
  /\ fst (dropIndex guards name) = [].
Proof.
  intros H. unfold deleteCollection, dropIndex.
  destruct (truthy name); cbn [negb];
    destruct H as [-> | ->]; destruct (readOnly guards); now split.
Qed.

(** X22. [deleteCollection] decides between deleting documents and dropping
    the collection on the raw [query] parameter alone: a request without it
    drops the whole collection, also when it carries a simple [key] and
    [value] pair. The collection list is refreshed only after a successful
    drop. *)
Theorem delete_without_raw_query_drops (req : request) :
  readOnly guards = false -> noDelete guards = false ->
  truthy (Query.query (params req)) = false ->
  fst (deleteCollection guards place req)
  = match Store.drop with
    | Ok _ => [Drop; UpdateCollections]
    | Throw _ => [Drop]
    end.
Proof.
  intros Hr Hn Hq. unfold deleteCollection. rewrite Hr, Hn, Hq.
  now destruct Store.drop.
Qed.

(** X23. When the request carries a simple pair, the content of the raw
    [query] parameter plays no part in [deleteCollection]: any two non-empty
    literals give the same outcome, and the filter sent to [deleteMany] is
    the one resolved from the pair (nothing is sent when that fails). *)
Theorem delete_filter_comes_from_simple_pair (req : request)
    (q1 q2 : string) :
  readOnly guards = false -> noDelete guards = false ->
  truthy (Query.key (params req)) = true ->
  truthy (Query.value (params req)) = true ->
  q1 <> "" -> q2 <> "" ->
  deleteCollection guards place (with_raw_query (Some q1) req)
  = deleteCollection guards place (with_raw_query (Some q2) req)
  /\ fst (deleteCollection guards place (with_raw_query (Some q1) req))
     = match _getQuery req with
       | Ok query => [DeleteMany query]
       | Throw _ => []
       end.
Proof.
  intros Hr Hn Hk Hv H1 H2.
  assert (Hq : forall q, q <> "" ->
            deleteCollection guards place (with_raw_query (Some q) req)
            = match _getQuery req with
              | Throw e =>
                  ([], back (SessionError
                               ("Something went wrong: " ++ exn_text e)))
              | Ok query =>
                  ([DeleteMany query],
                   match Store.deleteMany query with
                   | Ok deletedCount =>
                       {| session :=
                            DocumentsDeleted deletedCount (collectionName place);
                          redirect := baseHref place ++ "db/" ++ dbName place
                                      ++ "/" ++ collectionName place |}
                   | Throw e =>
                       back (SessionError
                               ("Something went wrong: " ++ exn_text e))
                   end)
              end).
  { intros q Hne. unfold deleteCollection. rewrite Hr, Hn.
    cbn [with_raw_query params Query.query truthy].
    destruct (String.eqb_spec q "") as [->|_]; [congruence|]. cbn [negb].
    rewrite (getQuery_simple (with_raw_query (Some q) req))
      by exact Hk || exact Hv.
    now rewrite (getQuery_simple req Hk Hv). }
  rewrite (Hq q1 H1), (Hq q2 H2). split; [reflexivity|].
  now destruct (_getQuery req).
Qed.

(** X24. Input the routes reject issues no store operation: [addIndex]
    without an index document, with an empty one or with one that does not
    parse; [addCollection] and [renameCollection] with a name the validator
    refuses, in which case the session carries the validator's message. *)
Theorem rejected_input_issues_nothing (doc name : option string) :
  (doc = None \/ doc = Some ""
   \/ (exists d e, doc = Some d /\ toBSON d = Throw e) ->
   fst (addIndex place doc) = [])
  /\ (error (validateCollectionName name) = true ->
      addCollection place name
      = ([], back (SessionError (message (validateCollectionName name))))
      /\ renameCollection place name
         = ([], back (SessionError (message (validateCollectionName name))))).
Proof.
  split.
  - unfold addIndex. intros [-> | [-> | (d & e & -> & He)]];
      [reflexivity | reflexivity |].
    destruct d; [reflexivity|]. now rewrite He.
  - intros He. unfold addCollection, renameCollection. cbv zeta.
    now rewrite He.
Qed.

(** X25. A failure never navigates away: whenever one of the
    administrative routes leaves an error in the session, it redirects
    back. *)
Theorem errors_redirect_back (req : request) (doc name : option string) :
  let outcomes :=
    [ snd (deleteCollection guards place req);
      snd (dropIndex guards name);
      snd (addIndex place doc);
      snd (addCollection place name);
      snd (renameCollection place name) ] in
  Forall (fun o => is_error (session o) = true -> redirect o = "back")
         outcomes.
Proof.
  cbv zeta. repeat constructor.
  - unfold deleteCollection.
    destruct (readOnly guards), (noDelete guards),
      (truthy (Query.query (params req))); try reflexivity.
    + destruct (_getQuery req) as [q|e]; [|reflexivity]. cbn [snd].
      destruct (Store.deleteMany q); [discriminate | reflexivity].
    + destruct Store.drop; [|reflexivity]. cbn [snd].
      destruct Store.updateCollections; [discriminate | reflexivity].
  - unfold dropIndex.
    destruct (truthy name), (readOnly guards), (noDelete guards);
      try reflexivity.
    cbn [negb snd]. destruct (Store.dropIndex _); reflexivity.
  - unfold addIndex. destruct doc as [[|c d]|]; try reflexivity.
    destruct (toBSON _) as [b|]; [|reflexivity]. cbn [snd].
    destruct (Store.createIndex b); [discriminate | reflexivity].
  - unfold addCollection. cbv zeta.
    destruct (error _); [reflexivity|].
    destruct (Store.createCollection name); [|reflexivity]. cbn [snd].
    destruct Store.updateCollections; [discriminate | reflexivity].
  - unfold renameCollection. cbv zeta.
    destruct (error _); [reflexivity|].
    destruct (Store.rename name); [|reflexivity]. cbn [snd].
    destruct Store.updateCollections; [discriminate | reflexivity].
Qed.

End AdminContracts.

Lemma guards_block_deletion_witness :
  fst (deleteCollection (rt := double_runtime) (bson := double_bson)
         (store := double_store) read_only sample_place
         (with_query "{x:1}")) = []
  /\ fst (dropIndex (store := double_store) read_only (Some "x_1")) = [].
Proof.
  apply (@guards_block_deletion double_runtime double_bson double_store
           read_only sample_place (with_query "{x:1}") (Some "x_1")).
  left. reflexivity.
Defined.

Lemma delete_without_raw_query_drops_witness :
  fst (deleteCollection (rt := double_runtime) (bson := double_bson)
         (store := double_store) no_guards sample_place
         (simple "age" "42" "N"))
  = [Drop; UpdateCollections].
Proof.
  apply (@delete_without_raw_query_drops double_runtime double_bson
           double_store no_guards sample_place (simple "age" "42" "N")).
  - reflexivity.
  - reflexivity.
  - reflexivity.
Defined.

Lemma delete_filter_comes_from_simple_pair_witness :
  fst (deleteCollection (rt := double_runtime) (bson := double_bson)
         (store := double_store) no_guards sample_place
         (with_raw_query (Some "{x:1}") (simple "age" "42" "N")))
  = [DeleteMany (VObj [("age", VInt 42)])].
Proof.
  refine (proj2 (@delete_filter_comes_from_simple_pair double_runtime
                   double_bson double_store no_guards sample_place
                   (simple "age" "42" "N") "{x:1}" "[]" _ _ _ _ _ _)).
  - reflexivity.
  - reflexivity.
  - reflexivity.
  - reflexivity.
  - discriminate.
  - discriminate.
Defined.
